(** * Outline extraction (src/main.py): shallow embedding and verification

    The program reads a document as pages of blocks, lines and spans
    (supplied by the PyMuPDF span source), picks a title from the largest
    text of page one and classifies the lines of every page as headings.

    Modelling decisions, fixed once for the whole development:
    - text is 7-bit ASCII, held in [string]; [str.lower], [str.strip],
      [str.split] and the regular-expression classes [\s], [\d], [\w] are
      the ASCII restrictions of their Python counterparts;
    - span sizes and page coordinates, floats in the program, are exact
      rationals [Q]; [round] is Python's round-half-to-even;
    - the span source is modelled at line granularity: a page stores its
      blocks in extraction order, [sort=True] is the stable sort by
      (bottom edge, left edge) of the block boxes, and a clip rectangle
      keeps the lines whose box overlaps it;
    - the mutable [outline] list and [processed_texts] set of
      [process_pdf] are threaded through the heading pass as an explicit
      state;
    - the directories, files and console that [main] works on are an
      explicit state too, and [os.path] is [posixpath]. *)

From Stdlib Require Import QArith Qround Qabs ZArith String Ascii List Bool Lia.
From Stdlib Require Import Qminmax Sorted Permutation DecimalString.
From stdpp Require Import gmap strings.
Import ListNotations.

Local Open Scope string_scope.

(** ** Python built-ins used by the program *)

Module Py.

(** [str.isspace] on ASCII: tab .. carriage return, the four separators
    0x1c .. 0x1f, and space.  The same set is the regex class [\s]. *)
Definition isspace (c : ascii) : bool :=
  let n := nat_of_ascii c in
  (Nat.leb 9 n && Nat.leb n 13) || (Nat.leb 28 n && Nat.leb n 32).

(** The regex class [\d] on ASCII. *)
Definition isdigit (c : ascii) : bool :=
  let n := nat_of_ascii c in Nat.leb 48 n && Nat.leb n 57.

Definition isupper (c : ascii) : bool :=
  let n := nat_of_ascii c in Nat.leb 65 n && Nat.leb n 90.

Definition islower (c : ascii) : bool :=
  let n := nat_of_ascii c in Nat.leb 97 n && Nat.leb n 122.

(** The regex class [\w] on ASCII: letters, digits and underscore. *)
Definition isword (c : ascii) : bool :=
  isdigit c || isupper c || islower c || Ascii.eqb c "_".

Definition lower_char (c : ascii) : ascii :=
  if isupper c then ascii_of_nat (nat_of_ascii c + 32) else c.

(** [s.lower()] *)
Fixpoint lower (s : string) : string :=
  match s with
  | EmptyString => EmptyString
  | String c s' => String (lower_char c) (lower s')
  end.

Fixpoint lstrip (s : string) : string :=
  match s with
  | EmptyString => EmptyString
  | String c s' => if isspace c then lstrip s' else s
  end.

Fixpoint rstrip (s : string) : string :=
  match s with
  | EmptyString => EmptyString
  | String c s' =>
      match rstrip s' with
      | EmptyString => if isspace c then EmptyString else String c EmptyString
      | r => String c r
      end
  end.

(** [s.strip()] *)
Definition strip (s : string) : string := rstrip (lstrip s).

(** [sep.join(l)] *)
Definition join (sep : string) (l : list string) : string :=
  String.concat sep l.

(** [s.count(c)] for a one-character needle. *)
Fixpoint count (c : ascii) (s : string) : nat :=
  match s with
  | EmptyString => 0
  | String d s' => (if Ascii.eqb d c then 1 else 0) + count c s'
  end.

(** [needle in hay] on strings. *)
Fixpoint contains (needle hay : string) : bool :=
  String.prefix needle hay ||
  match hay with
  | EmptyString => false
  | String _ hay' => contains needle hay'
  end.

(** [s.split()]: the maximal runs of non-space characters, in order.
    [cur] is the word being read, [None] between words. *)
Fixpoint split_from (cur : option string) (s : string) : list string :=
  match s with
  | EmptyString => match cur with Some w => [w] | None => [] end
  | String c s' =>
      if isspace c then
        match cur with
        | Some w => w :: split_from None s'
        | None => split_from None s'
        end
      else
        match cur with
        | Some w => split_from (Some (w ++ String c EmptyString)) s'
        | None => split_from (Some (String c EmptyString)) s'
        end
  end.

Definition split (s : string) : list string := split_from None s.

(** [list(dict.fromkeys(l))]: a dict keeps a key at the position of its
    first insertion, a later insertion of the same key changes nothing. *)
Definition dict_insert_key (d : list string) (k : string) : list string :=
  if existsb (String.eqb k) d then d else (d ++ [k])%list.

Definition fromkeys (l : list string) : list string :=
  fold_left dict_insert_key l [].

(** [round(x)]: to the nearest integer, a tie to the even one. *)
Definition round (x : Q) : Z :=
  let f := Qfloor x in
  match Qcompare (x - inject_Z f) (1 # 2) with
  | Lt => f
  | Gt => (f + 1)%Z
  | Eq => if Z.even f then f else (f + 1)%Z
  end.

Definition Qlt_bool (x y : Q) : bool := negb (Qle_bool y x).

(** [H{n}] as the f-string renders it. *)
Definition format_H (n : nat) : string :=
  "H" ++ NilEmpty.string_of_uint (Nat.to_uint n).

End Py.

(** ** Regular expressions: a backtracking matcher

    [re.match] explores the pattern depth first: a greedy repetition takes
    as many iterations as it can and gives them back one by one, an
    alternation tries its branches from left to right.  The matcher is
    written with a continuation [k] that receives the rest of the subject
    and decides whether the whole match succeeds. *)

Module Re.

Inductive regex : Type :=
| Eps : regex
| Class : (ascii -> bool) -> regex
| Seq : regex -> regex -> regex
| Alt : regex -> regex -> regex
| Star : regex -> regex.

Definition Chr (c : ascii) : regex := Class (Ascii.eqb c).
Definition Plus (r : regex) : regex := Seq r (Star r).

Fixpoint Lit (s : string) : regex :=
  match s with
  | EmptyString => Eps
  | String c s' => Seq (Chr c) (Lit s')
  end.

Definition or_else {A} (x y : option A) : option A :=
  match x with Some _ => x | None => y end.

(** An iteration of a repetition has to consume at least one character,
    so [String.length s] iterations are all a repetition can take. *)
Fixpoint run {A} (r : regex) (s : string) (k : string -> option A) : option A :=
  match r with
  | Eps => k s
  | Class p =>
      match s with
      | String c s' => if p c then k s' else None
      | EmptyString => None
      end
  | Seq r1 r2 => run r1 s (fun s' => run r2 s' k)
  | Alt r1 r2 => or_else (run r1 s k) (run r2 s k)
  | Star r1 =>
      (fix loop (n : nat) (s : string) {struct n} : option A :=
         match n with
         | O => k s
         | S n' =>
             or_else
               (run r1 s (fun s' =>
                  if Nat.ltb (String.length s') (String.length s)
                  then loop n' s' else None))
               (k s)
         end) (String.length s) s
  end.

(** [re.match(r, s)]: the rest of [s] after the match, when there is one. *)
Definition rmatch (r : regex) (s : string) : option string :=
  run r s Some.

(** [re.sub(r, "", s)] for a pattern anchored with [^] that cannot match
    the empty string: only a match at position 0 is replaced. *)
Definition sub_anchored (r : regex) (s : string) : string :=
  match rmatch r s with
  | Some rest => rest
  | None => s
  end.

(** [re.sub(r"\s+", " ", s)]: every maximal run of space characters
    becomes one space.  [in_run] tells that the previous character was a
    space. *)
Fixpoint collapse_from (in_run : bool) (s : string) : string :=
  match s with
  | EmptyString => EmptyString
  | String c s' =>
      if Py.isspace c then
        if in_run then collapse_from true s'
        else String " " (collapse_from true s')
      else String c (collapse_from false s')
  end.

Definition sub_spaces (s : string) : string := collapse_from false s.

End Re.

(** ** The two patterns of [process_pdf] *)

Definition separator (c : ascii) : bool :=
  Ascii.eqb c "." || Py.isspace c || Ascii.eqb c "-".

(** [(\d+(?:\.\d+)*|Chapter\s\d+|Appendix\s\w)] *)
Definition numbering_group : Re.regex :=
  Re.Alt
    (Re.Seq (Re.Plus (Re.Class Py.isdigit))
            (Re.Star (Re.Seq (Re.Chr ".") (Re.Plus (Re.Class Py.isdigit)))))
    (Re.Alt
       (Re.Seq (Re.Lit "Chapter")
               (Re.Seq (Re.Class Py.isspace) (Re.Plus (Re.Class Py.isdigit))))
       (Re.Seq (Re.Lit "Appendix")
               (Re.Seq (Re.Class Py.isspace) (Re.Class Py.isword)))).

(** [^\s*(...)[\.\s-]], the pattern of the numbered-heading check. *)
Definition numbering_re : Re.regex :=
  Re.Seq (Re.Star (Re.Class Py.isspace))
         (Re.Seq numbering_group (Re.Class separator)).

(** [^\s*(...)[\.\s-]*], the pattern stripped from an accepted line. *)
Definition prefix_re : Re.regex :=
  Re.Seq (Re.Star (Re.Class Py.isspace))
         (Re.Seq numbering_group (Re.Star (Re.Class separator))).

Definition clean_heading (line_text : string) : string :=
  Py.strip (Re.sub_anchored prefix_re line_text).

(** ** Data model: what the span source reports *)

Record Rect : Type := { x0 : Q; y0 : Q; x1 : Q; y1 : Q }.

(** A span as the keys ["text"], ["size"] and ["font"] of its dict. *)
Record Span : Type := { span_text : string; span_size : Q; span_font : string }.

Record Line : Type := { spans : list Span; line_bbox : Rect }.

(** A block without a ["lines"] key (an image block) has [lines = []]:
    the program reads the key through [block.get("lines")] and
    [block.get("lines", [])], which do not tell the two apart. *)
Record Block : Type := { bbox : Rect; lines : list Line }.

Record Page : Type := { width : Q; height : Q; blocks : list Block }.

Definition Document : Type := list Page.

(** One element of the ["outline"] list and the returned dict. *)
Record Entry : Type := { level : string; text : string; page : nat }.

Record Result : Type := { title : string; outline : list Entry }.

(** ** The span source: [page.get_text("dict", sort=.., clip=..)["blocks"]] *)

(** Two boxes overlap when their intersection has a positive area. *)
Definition overlaps (a b : Rect) : bool :=
  Py.Qlt_bool (x0 a) (x1 b) && Py.Qlt_bool (y0 a) (y1 b) &&
  Py.Qlt_bool (x0 b) (x1 a) && Py.Qlt_bool (y0 b) (y1 a).

Definition clip_block (clip : Rect) (b : Block) : Block :=
  {| bbox := bbox b;
     lines := List.filter (fun l => overlaps (line_bbox l) clip) (lines b) |}.

(** The sort key [(b["bbox"][3], b["bbox"][0])], compared as tuples. *)
Definition key_le (a b : Block) : bool :=
  Py.Qlt_bool (y1 (bbox a)) (y1 (bbox b)) ||
  (Qeq_bool (y1 (bbox a)) (y1 (bbox b)) && Qle_bool (x0 (bbox a)) (x0 (bbox b))).

Fixpoint insert_block (b : Block) (l : list Block) : list Block :=
  match l with
  | [] => [b]
  | c :: l' => if key_le b c then b :: l else c :: insert_block b l'
  end.

(** A stable sort: a block stays before the later blocks of equal key. *)
Definition sort_blocks (l : list Block) : list Block :=
  fold_right insert_block [] l.

Definition get_text (sort : bool) (clip : option Rect) (p : Page) : list Block :=
  let bs := match clip with
            | None => blocks p
            | Some r => map (clip_block r) (blocks p)
            end in
  if sort then sort_blocks bs else bs.

(** ** [collections.Counter] over rounded sizes

    A Counter is a dict: it keeps its keys in the order of their first
    insertion, which is what decides a tie in [most_common]. *)

Definition Counter : Type := list (Z * nat).

Fixpoint counter_add (k : Z) (c : Counter) : Counter :=
  match c with
  | [] => [(k, 1)]
  | (k', n) :: c' =>
      if Z.eqb k k' then (k', S n) :: c' else (k', n) :: counter_add k c'
  end.

Definition counter_of (l : list Z) : Counter :=
  fold_left (fun c k => counter_add k c) l [].

(** [most_common(1)[0]] of a Counter with first item [first]: Python takes
    [max(items, key=count)], which keeps the first of equal maxima. *)
Definition most_common_1 (first : Z * nat) (others : Counter) : Z * nat :=
  fold_left (fun best item => if Nat.ltb (snd best) (snd item) then item else best)
            others first.

(** [sorted(l, reverse=True)] on integers. *)
Fixpoint insert_desc (x : Z) (l : list Z) : list Z :=
  match l with
  | [] => [x]
  | y :: l' => if Z.leb y x then x :: l else y :: insert_desc x l'
  end.

Definition sorted_desc (l : list Z) : list Z := fold_right insert_desc [] l.

Definition enumerate {A} (l : list A) : list (nat * A) :=
  combine (seq 0 (length l)) l.

(** ** [find_document_title] *)

(** The first loop: the running maximum of the span sizes, from 0. *)
Definition max_font_size_of (blocks : list Block) : Q :=
  fold_left (fun m block =>
    fold_left (fun m line =>
      fold_left (fun m span =>
        if Py.Qlt_bool m (span_size span) then span_size span else m)
        (spans line) m)
      (lines block) m)
    blocks 0%Q.

(** The second loop: [title_candidates.append] in the upper 70% of the page. *)
Definition title_candidates_of (page_height max_font_size : Q)
    (blocks : list Block) : list string :=
  fold_left (fun (cands : list string) block =>
    if Py.Qlt_bool (y1 (bbox block)) (page_height * (7 # 10)) &&
       negb (Nat.eqb (length (lines block)) 0)
    then
      fold_left (fun (cands : list string) line =>
        fold_left (fun (cands : list string) span =>
          if Py.Qlt_bool (Qabs (span_size span - max_font_size)) 1
          then (cands ++ [Py.strip (span_text span)])%list else cands)
          (spans line) cands)
        (lines block) cands
    else cands)
    blocks [].

(** The candidates collected on page one, read with [sort=True]. *)
Definition title_candidates (page_one : Page) : list string :=
  let blocks := get_text true None page_one in
  let max_font_size := max_font_size_of blocks in
  title_candidates_of (height page_one) max_font_size blocks.

(** [find_document_title(doc)], on the page that [doc.load_page(0)] gives;
    [process_pdf] calls it only after its [page_count] test. *)
Definition find_document_title (page_one : Page) : string :=
  match title_candidates page_one with
  | [] => "Untitled Document"
  | title_candidates =>
      let full_title := Py.join " " (Py.fromkeys title_candidates) in
      Py.strip (Re.sub_spaces full_title)
  end.

(** ** [process_pdf] *)

(** The generator fed to [Counter]: every rounded span size, in order. *)
Definition rounded_sizes (doc : Document) : list Z :=
  flat_map (fun page =>
    flat_map (fun block =>
      flat_map (fun line => map (fun span => Py.round (span_size span)) (spans line))
               (lines block))
      (get_text false None page))
    doc.

Definition heading_sizes_of (sizes : Counter) (body_size : Z) : list Z :=
  sorted_desc (List.filter (fun size => Z.ltb body_size size) (map fst sizes)).

Definition size_to_level_of (heading_sizes : list Z) : gmap Z string :=
  fold_left (fun m '(i, size) => <[size := Py.format_H (i + 1)]> m)
            (enumerate (firstn 3 heading_sizes)) ∅.

(** The mutable state of the heading pass. *)
Record State : Type :=
  { st_outline : list Entry; processed_texts : gset string }.

Definition line_text_of (line : Line) : string :=
  Py.strip (Py.join " " (map span_text (spans line))).

(** The guard that ends in [continue]. *)
Definition skipped (processed : gset string) (line_text : string) : bool :=
  String.eqb line_text "" ||
  Nat.ltb (String.length line_text) 3 ||
  bool_decide (Py.lower line_text ∈ processed).

Definition is_bold_of (span : Span) : bool :=
  Py.contains "bold" (Py.lower (span_font span)).

Definition is_none {A} (o : option A) : bool :=
  match o with None => true | Some _ => false end.

(** The three checks, in program order; the result is [level]. *)
Definition classify (body_size : Z) (size_to_level : gmap Z string)
    (line_text : string) (span : Span) : option string :=
  let font_size := Py.round (span_size span) in
  let is_bold := is_bold_of span in
  let level : option string :=
    match Re.rmatch numbering_re line_text with
    | Some _ =>
        if is_bold then
          let dot_count := Py.count "." line_text in
          Some (Py.format_H (Nat.min (Nat.max 2 (dot_count + 2)) 4))
        else None
    | None => None
    end in
  if is_none level && bool_decide (is_Some (size_to_level !! font_size)) && is_bold
  then size_to_level !! font_size
  else if is_none level && is_bold && Z.ltb body_size font_size &&
          Nat.ltb (length (Py.split line_text)) 10
  then Some "H3"
  else level.

(** [if level:] — a string is true when it is not empty. *)
Definition truthy (level : option string) : bool :=
  match level with
  | Some l => negb (String.eqb l "")
  | None => false
  end.

(** [outline.append({...})] followed by [processed_texts.add(...)]. *)
Definition emit (st : State) (level line_text : string) (page_num : nat) : State :=
  {| st_outline :=
       (st_outline st ++
        [{| level := level; text := clean_heading line_text;
            page := page_num + 1 |}])%list;
     processed_texts := {[Py.lower line_text]} ∪ processed_texts st |}.

(** The body of the innermost loop.  A line without spans has an empty
    text and is skipped by the guard, so [line["spans"][0]] is defined
    whenever it is reached (lemma [guard_gives_first_span]). *)
Definition heading_line (body_size : Z) (size_to_level : gmap Z string)
    (page_num : nat) (st : State) (line : Line) : State :=
  let line_text := line_text_of line in
  if skipped (processed_texts st) line_text then st
  else
    match spans line with
    | [] => st
    | span :: _ =>
        let level := classify body_size size_to_level line_text span in
        if truthy level then
          match level with
          | Some l => emit st l line_text page_num
          | None => st
          end
        else st
    end.

Definition clip_box (p : Page) : Rect :=
  {| x0 := 0; y0 := height p * (1 # 10); x1 := width p; y1 := height p * (9 # 10) |}.

(** The lines the classifier visits on a page, in visiting order. *)
Definition visited_lines (p : Page) : list Line :=
  flat_map lines (get_text true (Some (clip_box p)) p).

Definition heading_page (body_size : Z) (size_to_level : gmap Z string)
    (st : State) (numbered : nat * Page) : State :=
  fold_left (heading_line body_size size_to_level (fst numbered))
            (visited_lines (snd numbered)) st.

Definition heading_pass (body_size : Z) (size_to_level : gmap Z string)
    (doc : Document) (st : State) : State :=
  fold_left (heading_page body_size size_to_level) (enumerate doc) st.

(** [outline = []] and [processed_texts = {title.lower()}]. *)
Definition initial_state (title : string) : State :=
  {| st_outline := []; processed_texts := {[Py.lower title]} |}.

Definition process_pdf (doc : Document) : Result :=
  match doc with
  | [] => {| title := "Empty Document"; outline := [] |}
  | page_one :: _ =>
      let title := find_document_title page_one in
      let st := initial_state title in
      match counter_of (rounded_sizes doc) with
      | [] => {| title := title; outline := [] |}
      | first :: others =>
          let body_size := fst (most_common_1 first others) in
          let heading_sizes := heading_sizes_of (first :: others) body_size in
          let size_to_level := size_to_level_of heading_sizes in
          {| title := title;
             outline := st_outline (heading_pass body_size size_to_level doc st) |}
      end
  end.

(** ** The heading pass as one sequence of visits *)

(** Every visited line with the index of its page, in visiting order. *)
Definition visits_from (k : nat) (doc : Document) : list (nat * Line) :=
  flat_map (fun numbered => map (pair (fst numbered)) (visited_lines (snd numbered)))
           (combine (seq k (length doc)) doc).

Definition visits (doc : Document) : list (nat * Line) := visits_from 0 doc.

Definition visit (body_size : Z) (size_to_level : gmap Z string)
    (st : State) (v : nat * Line) : State :=
  heading_line body_size size_to_level (fst v) st (snd v).

(** ** Margins *)

Definition in_top_margin (p : Page) (l : Line) : bool :=
  Qle_bool (y1 (line_bbox l)) (height p * (1 # 10)).

Definition in_bottom_margin (p : Page) (l : Line) : bool :=
  Qle_bool (height p * (9 # 10)) (y0 (line_bbox l)).

(** The page with every line of its top and bottom margin deleted. *)
Definition without_margin_lines (p : Page) : Page :=
  {| width := width p; height := height p;
     blocks :=
       map (fun b =>
              {| bbox := bbox b;
                 lines := List.filter (fun l => negb (in_top_margin p l || in_bottom_margin p l))
                                 (lines b) |})
           (blocks p) |}.

(** ** The title as the specification words it *)

Definition page_spans (bs : list Block) : list Span :=
  flat_map (fun b => flat_map spans (lines b)) bs.

(** The largest of the sizes of a non-empty list of spans. *)
Definition largest_from (s0 : Span) (l : list Span) : Q :=
  fold_right (fun s' m => Qmax (span_size s') m) (span_size s0) l.

Definition spec_max_size (l : list Span) : option Q :=
  match l with
  | [] => None
  | s :: l' => Some (largest_from s l')
  end.

(** One step of the first loop of [find_document_title] on a flat list of
    spans. *)
Definition bump (m : Q) (s : Span) : Q :=
  if Py.Qlt_bool m (span_size s) then span_size s else m.

(** Spans of blocks whose bottom edge is in the upper 70% of the page and
    whose size is within 1.0 of the maximum [M], as trimmed texts. *)
Definition spec_candidates_at (page_height M : Q) (bs : list Block) : list string :=
  flat_map (fun b =>
    if Py.Qlt_bool (y1 (bbox b)) (page_height * (7 # 10)) then
      map (fun s => Py.strip (span_text s))
          (List.filter (fun s => Py.Qlt_bool (Qabs (span_size s - M)) 1)
                  (flat_map spans (lines b)))
    else [])
    bs.

Definition spec_candidates (page_one : Page) : list string :=
  let bs := get_text true None page_one in
  match spec_max_size (page_spans bs) with
  | None => []
  | Some M => spec_candidates_at (height page_one) M bs
  end.

(** Exact duplicates removed, the first occurrence kept in place. *)
Fixpoint dedup_first (l : list string) : list string :=
  match l with
  | [] => []
  | x :: l' => x :: List.filter (fun y => negb (String.eqb y x)) (dedup_first l')
  end.

Definition spec_title (page_one : Page) : string :=
  match spec_candidates page_one with
  | [] => "Untitled Document"
  | cands => Py.strip (Re.sub_spaces (Py.join " " (dedup_first cands)))
  end.

(** ** How an entry comes out of a visit *)

(** The visit [v] took the pass from [st] to [st']: the line passed the
    guard against the set [seen], its first span gave a level, and the
    entry was appended. *)
Definition emitted_from (body_size : Z) (size_to_level : gmap Z string)
    (seen : gset string) (v : nat * Line) (st' st : State) : Prop :=
  exists span rest lv,
    spans (snd v) = span :: rest /\
    skipped seen (line_text_of (snd v)) = false /\
    classify body_size size_to_level (line_text_of (snd v)) span = Some lv /\
    st' = emit st lv (line_text_of (snd v)) (fst v).

(** The entry [e] is what the visit [v] appends when its line passes the
    guard against [seen] and its first span gives a level. *)
Definition source_of (body_size : Z) (size_to_level : gmap Z string)
    (seen : gset string) (v : nat * Line) (e : Entry) : Prop :=
  exists span rest lv,
    spans (snd v) = span :: rest /\
    skipped seen (line_text_of (snd v)) = false /\
    classify body_size size_to_level (line_text_of (snd v)) span = Some lv /\
    e = {| level := lv; text := clean_heading (line_text_of (snd v));
           page := fst v + 1 |}.

(** The values a size-to-level dict may hold. *)
Definition ranked_levels (size_to_level : gmap Z string) : Prop :=
  forall k lv, size_to_level !! k = Some lv -> In lv ["H1"; "H2"; "H3"].

(** Page and text of an entry, and of the entry a visit would give. *)
Definition entry_key (e : Entry) : nat * string := (page e, text e).

Definition visit_key (v : nat * Line) : nat * string :=
  (fst v + 1, clean_heading (line_text_of (snd v))).

(** ** The body size, and text with single spaces *)

(** [sizes.most_common(1)[0][0]] of [process_pdf], when [sizes] is not
    empty. *)
Definition body_size_of (doc : Document) : option Z :=
  match counter_of (rounded_sizes doc) with
  | [] => None
  | first :: others => Some (fst (most_common_1 first others))
  end.

(** [c[k]]: the count of a key, 0 when the key is missing. *)
Fixpoint counter_get (k : Z) (c : Counter) : nat :=
  match c with
  | [] => 0
  | (k', n) :: c' => if Z.eqb k k' then n else counter_get k c'
  end.

(** Every white-space character of [s] is a space and no two of them are
    adjacent; [after_space] tells that a space stands just before [s]. *)
Fixpoint single_spaced (after_space : bool) (s : string) : bool :=
  match s with
  | EmptyString => true
  | String c s' =>
      if Py.isspace c
      then Ascii.eqb c " " && negb after_space && single_spaced true s'
      else single_spaced false s'
  end.

(** ** [main]: the batch driver

    The file system and the console, which [main] reaches through [os],
    [open] and [print], are an explicit state: what [os.listdir] gives for
    the input directory when it exists, whether the output directory
    exists, the JSON files with the data dumped in them, and what was
    printed.  Opening and reading a PDF is the function [open_doc]: the
    document at a path, or [None] when [process_pdf] raises there.  The
    write of the JSON file is taken to succeed. *)

Module Os.

(** [s.endswith(suffix)] *)
Definition endswith (s suffix : string) : bool :=
  let n := String.length s in
  let m := String.length suffix in
  Nat.leb m n && String.eqb (String.substring (n - m) m s) suffix.

(** [s.rfind(c)] for a one-character needle, [None] for -1. *)
Fixpoint rfind (c : ascii) (s : string) : option nat :=
  match s with
  | EmptyString => None
  | String d s' =>
      match rfind c s' with
      | Some i => Some (S i)
      | None => if Ascii.eqb d c then Some 0%nat else None
      end
  end.

(** [os.path.splitext(p)] of [posixpath]: the extension starts at the
    last dot, unless that dot comes before the last slash or only dots
    stand between the last slash and it. *)
Definition splitext (p : string) : string * string :=
  match rfind "." p with
  | None => (p, "")
  | Some dotIndex =>
      let filenameIndex :=
        match rfind "/" p with Some sepIndex => S sepIndex | None => 0%nat end in
      if Nat.leb filenameIndex dotIndex &&
         existsb (fun c => negb (Ascii.eqb c "."))
                 (list_ascii_of_string
                    (String.substring filenameIndex (dotIndex - filenameIndex) p))
      then (String.substring 0 dotIndex p,
            String.substring dotIndex (String.length p - dotIndex) p)
      else (p, "")
  end.

(** [os.path.join(a, b)] of [posixpath]. *)
Definition join (a b : string) : string :=
  if String.prefix "/" b then b
  else if String.eqb a "" || endswith a "/" then a ++ b
  else a ++ "/" ++ b.

End Os.

(** What [main] prints, message by message. *)
Inductive Event : Type :=
| Created_input_directory : string -> Event
| Processing : string -> Event
| Successfully_created : string -> Event
| Failed_to_process : string -> Event.

Record World : Type :=
  { input_listing : option (list string);
    output_exists : bool;
    output_files : gmap string Result;
    printed : list Event }.

Definition print (e : Event) (w : World) : World :=
  {| input_listing := input_listing w; output_exists := output_exists w;
     output_files := output_files w; printed := (printed w ++ [e])%list |}.

(** [with open(path, "w") as f: json.dump(data, f, ...)] *)
Definition dump (path : string) (data : Result) (w : World) : World :=
  {| input_listing := input_listing w; output_exists := output_exists w;
     output_files := <[path := data]> (output_files w); printed := printed w |}.

Definition is_pdf_name (filename : string) : bool :=
  Os.endswith (Py.lower filename) ".pdf".

Definition json_filename_of (filename : string) : string :=
  fst (Os.splitext filename) ++ ".json".

Section Main.

Variables (INPUT_DIR OUTPUT_DIR : string).
Variable open_doc : string -> option Document.

Definition output_path_of (filename : string) : string :=
  Os.join OUTPUT_DIR (json_filename_of filename).

(** The body of the loop over [os.listdir(INPUT_DIR)]. *)
Definition main_file (w : World) (filename : string) : World :=
  if is_pdf_name filename then
    let pdf_path := Os.join INPUT_DIR filename in
    let w := print (Processing filename) w in
    match open_doc pdf_path with
    | Some doc =>
        let structured_data := process_pdf doc in
        let output_path := output_path_of filename in
        print (Successfully_created output_path)
              (dump output_path structured_data w)
    | None => print (Failed_to_process filename) w
    end
  else w.

Definition main (w : World) : World :=
  match input_listing w with
  | None =>
      print (Created_input_directory INPUT_DIR)
            {| input_listing := Some []; output_exists := output_exists w;
               output_files := output_files w; printed := printed w |}
  | Some names =>
      fold_left main_file names
        {| input_listing := input_listing w; output_exists := true;
           output_files := output_files w; printed := printed w |}
  end.

(** A name that [main] turns into a JSON file. *)
Definition converted (filename : string) : bool :=
  is_pdf_name filename &&
  negb (is_none (open_doc (Os.join INPUT_DIR filename))).

End Main.

(** ** Patterns that can match the empty string *)

Fixpoint nullable (r : Re.regex) : bool :=
  match r with
  | Re.Eps => true
  | Re.Class _ => false
  | Re.Seq r1 r2 => nullable r1 && nullable r2
  | Re.Alt r1 r2 => nullable r1 || nullable r2
  | Re.Star _ => true
  end.

(** The key of the de-duplication set for a visit. *)
Definition raw_key (v : nat * Line) : string :=
  Py.lower (line_text_of (snd v)).

(** ** Sample documents *)

Definition box (top bottom : Q) : Rect :=
  {| x0 := 72; y0 := top; x1 := 540; y1 := bottom |}.

(** A line of one span, between two heights of the page. *)
Definition span_line (txt : string) (sz : Q) (fnt : string) (top bottom : Q) : Line :=
  {| spans := [{| span_text := txt; span_size := sz; span_font := fnt |}];
     line_bbox := box top bottom |}.

(** A block of one such line. *)
Definition one_line (txt : string) (sz : Q) (fnt : string) (top bottom : Q) : Block :=
  {| bbox := box top bottom; lines := [span_line txt sz fnt top bottom] |}.

Definition letter (bs : list Block) : Page :=
  {| width := 612; height := 792; blocks := bs |}.

(** The three pages of the end-to-end scenario. *)
Definition scenario_doc : Document :=
  [ letter [one_line "Annual Report 2024" 28 "Helvetica" 100 130;
            one_line "This report covers the year." 12 "Helvetica" 200 214];
    letter [one_line "1. Overview" 18 "Helvetica-Bold" 100 120;
            one_line "The year went well." 12 "Helvetica" 200 214];
    letter [one_line "1.1 Details" 16 "Helvetica-Bold" 100 118;
            one_line "More about the year." 12 "Helvetica" 200 214] ].

Definition summary_doc : Document :=
  [ letter [one_line "Quarterly Notes" 28 "Helvetica" 100 130;
            one_line "1. Summary" 14 "Helvetica-Bold" 200 216;
            one_line "First part of the notes." 12 "Helvetica" 230 244;
            one_line "Second part of the notes." 12 "Helvetica" 250 264;
            one_line "2. Summary" 14 "Helvetica-Bold" 300 316] ].

(** The title text comes back in capitals on page 2. *)
Definition echo_doc : Document :=
  [ letter [one_line "Annual Report 2024" 28 "Helvetica" 100 130;
            one_line "This report covers the year." 12 "Helvetica" 200 214];
    letter [one_line "1. Overview" 18 "Helvetica-Bold" 100 120;
            one_line "The year went well." 12 "Helvetica" 200 214;
            one_line "ANNUAL REPORT 2024" 28 "Helvetica-Bold" 300 330] ].

(** The largest text of page one stands in the lower 30% of the page. *)
Definition untitled_doc : Document :=
  [ letter [one_line "Some notes, first part." 12 "Helvetica" 100 114;
            one_line "Some notes, second part." 12 "Helvetica" 120 134;
            one_line "UNTITLED DOCUMENT" 28 "Helvetica-Bold" 600 630] ].

(** A page with an image block and a line without spans. *)
Definition blank_doc : Document :=
  [ letter [ {| bbox := box 100 300; lines := [] |};
             {| bbox := box 400 420;
                lines := [ {| spans := []; line_bbox := box 400 420 |} ] |} ] ].

(** A bold 28pt numbered line in the top margin, another in the bottom
    margin, and a bold 14pt numbered line inside the band. *)
Definition margin_doc : Document :=
  [ letter [one_line "1. Running header" 28 "Helvetica-Bold" 20 50;
            one_line "Plain text of the page." 12 "Helvetica" 200 214;
            one_line "3. Section" 14 "Helvetica-Bold" 230 246;
            one_line "More plain text of the page." 12 "Helvetica" 260 274;
            one_line "Last plain text of the page." 12 "Helvetica" 290 304;
            one_line "2. Running footer" 28 "Helvetica-Bold" 740 770] ].

Definition overview_doc : Document :=
  [ letter [one_line "Overview" 28 "Helvetica" 100 130;
            one_line "1. Overview" 14 "Helvetica-Bold" 200 216;
            one_line "First part of the notes." 12 "Helvetica" 230 244;
            one_line "Second part of the notes." 12 "Helvetica" 250 264] ].

(** An input directory with a text file, two entries that differ in the
    case of the extension, and a PDF that does not open. *)
Definition sample_open (path : string) : option Document :=
  if String.eqb path "/app/input/a.pdf" then Some scenario_doc
  else if String.eqb path "/app/input/a.PDF" then Some summary_doc
  else None.

Definition sample_world : World :=
  {| input_listing := Some ["notes.txt"; "a.pdf"; "broken.pdf"; "a.PDF"];
     output_exists := false;
     output_files := ∅;
     printed := [] |}.

(** * The patterns on sample lines *)

Example match_dotted : Re.rmatch numbering_re "1.1 Details" = Some "Details".
Proof. vm_compute. reflexivity. Qed.

(** The last group of digits is given back when no separator follows it. *)
Example match_backtracks : Re.rmatch numbering_re "12.3x" = Some "3x".
Proof. vm_compute. reflexivity. Qed.

Example match_chapter : Re.rmatch numbering_re "Chapter 3 Intro" = Some "Intro".
Proof. vm_compute. reflexivity. Qed.

Example match_appendix : Re.rmatch numbering_re "Appendix A-x" = Some "x".
Proof. vm_compute. reflexivity. Qed.

Example no_match_word : Re.rmatch numbering_re "Overview" = None.
Proof. vm_compute. reflexivity. Qed.

Example no_match_without_separator : Re.rmatch numbering_re "1Overview" = None.
Proof. vm_compute. reflexivity. Qed.

Example match_overview : Re.rmatch numbering_re "1. Overview" = Some " Overview".
Proof. vm_compute. reflexivity. Qed.

Example clean_overview : clean_heading "1. Overview" = "Overview".
Proof. vm_compute. reflexivity. Qed.

Example clean_keeps_inner_dots :
  clean_heading "1.2 See fig. 3.4 for details" = "See fig. 3.4 for details".
Proof. vm_compute. reflexivity. Qed.

(** * Properties of the heading classifier, line by line *)

Lemma format_H_cons (n : nat) :
  Py.format_H n = String "H" (NilEmpty.string_of_uint (Nat.to_uint n)).
Proof. reflexivity. Qed.

Lemma format_H_truthy (n : nat) : truthy (Some (Py.format_H n)) = true.
Proof. rewrite format_H_cons. reflexivity. Qed.

Lemma skipped_false (processed : gset string) (line_text : string) :
  line_text <> "" ->
  (3 <= String.length line_text)%nat ->
  Py.lower line_text ∉ processed ->
  skipped processed line_text = false.
Proof.
  intros Hne Hlen Hnew. unfold skipped.
  apply String.eqb_neq in Hne. rewrite Hne. simpl.
  apply Nat.ltb_ge in Hlen. rewrite Hlen. simpl.
  apply bool_decide_eq_false. exact Hnew.
Qed.

Lemma skipped_true (processed : gset string) (line_text : string) :
  line_text = "" \/ (String.length line_text < 3)%nat \/
  Py.lower line_text ∈ processed ->
  skipped processed line_text = true.
Proof.
  unfold skipped. intros [H | [H | H]].
  - subst. reflexivity.
  - apply Nat.ltb_lt in H. rewrite H, orb_true_r. reflexivity.
  - rewrite (bool_decide_eq_true_2 _ H). apply orb_true_r.
Qed.

(** [line["spans"][0]] never fails: a line that passes the guard has a
    first span. *)
Lemma guard_gives_first_span (processed : gset string) (line : Line) :
  skipped processed (line_text_of line) = false ->
  exists span rest, spans line = span :: rest.
Proof.
  destruct (spans line) as [|span rest] eqn:E.
  - unfold line_text_of. rewrite E. simpl. discriminate.
  - eauto.
Qed.

Section Line_by_line.

Variables (body_size : Z) (size_to_level : gmap Z string).

Lemma heading_line_skipped (page_num : nat) (st : State) (line : Line) :
  skipped (processed_texts st) (line_text_of line) = true ->
  heading_line body_size size_to_level page_num st line = st.
Proof. intros H. unfold heading_line. rewrite H. reflexivity. Qed.

(** C5, no short or duplicate headings: a line whose trimmed text is
    empty, or shorter than 3 characters, or whose lowercase text is already
    in the de-duplication set (the title or an accepted heading) leaves the
    state of the pass as it was: no outline entry is appended and the set
    is unchanged. *)
Theorem no_short_or_duplicate_headings
    (page_num : nat) (st : State) (line : Line) :
  line_text_of line = "" \/
  (String.length (line_text_of line) < 3)%nat \/
  Py.lower (line_text_of line) ∈ processed_texts st ->
  heading_line body_size size_to_level page_num st line = st /\
  st_outline (heading_line body_size size_to_level page_num st line) = st_outline st /\
  processed_texts (heading_line body_size size_to_level page_num st line) =
    processed_texts st.
Proof.
  intros H. apply skipped_true in H.
  rewrite (heading_line_skipped _ _ _ H). auto.
Qed.

(** A bold line that matches the numbering pattern gets its level from the
    first check; the two later checks leave it alone. *)
Lemma classify_numbered (line_text : string) (span : Span) :
  is_Some (Re.rmatch numbering_re line_text) ->
  is_bold_of span = true ->
  classify body_size size_to_level line_text span =
    Some (Py.format_H (Nat.min (Nat.max 2 (Py.count "." line_text + 2)) 4)).
Proof.
  intros [rest Hm] Hb. unfold classify. rewrite Hm, Hb. reflexivity.
Qed.

(** C2, numbering depth law: a considered line (non-empty after trimming,
    at least 3 characters, lowercase text not in the de-duplication set)
    that matches the numbering pattern and whose first span is bold is
    emitted with level H{clamp(D+2, 2, 4)}, D the number of '.' characters
    of the whole line text. *)
Theorem numbering_depth_law
    (page_num : nat) (st : State) (line : Line) (span : Span) :
  line_text_of line <> "" ->
  (3 <= String.length (line_text_of line))%nat ->
  Py.lower (line_text_of line) ∉ processed_texts st ->
  is_Some (Re.rmatch numbering_re (line_text_of line)) ->
  hd_error (spans line) = Some span ->
  is_bold_of span = true ->
  heading_line body_size size_to_level page_num st line =
    emit st
      (Py.format_H (Nat.min (Nat.max 2 (Py.count "." (line_text_of line) + 2)) 4))
      (line_text_of line) page_num.
Proof.
  intros Hne Hlen Hnew Hm Hspan Hb.
  unfold heading_line. rewrite (skipped_false _ _ Hne Hlen Hnew).
  destruct (spans line) as [|s rest]; [discriminate|].
  injection Hspan as ->.
  rewrite (classify_numbered _ _ Hm Hb), format_H_truthy. reflexivity.
Qed.

(** Whatever the document, the body size and the ranking, a line that
    reads '1. Overview' is either not emitted or emitted at H3: when its
    first span is bold the numbered check decides, when it is not no check
    applies. *)
Lemma overview_line_level (page_num : nat) (st : State) (line : Line) :
  line_text_of line = "1. Overview" ->
  heading_line body_size size_to_level page_num st line = st \/
  heading_line body_size size_to_level page_num st line =
    emit st "H3" "1. Overview" page_num.
Proof.
  intros E. unfold heading_line. rewrite E.
  destruct (skipped _ _); [left; reflexivity|].
  destruct (spans line) as [|span rest]; [left; reflexivity|].
  unfold classify. rewrite match_overview.
  destruct (is_bold_of span).
  - right. reflexivity.
  - left. rewrite !andb_false_r. reflexivity.
Qed.

End Line_by_line.

(** * Whole documents *)

(** C1 as the program has it: on the scenario document the title is
    'Annual Report 2024' and the outline is Overview on page 2 and Details on
    page 3, both at level H3: '1. Overview' is bold and matches the
    numbering pattern with one '.', so the numbered check gives it
    H{clamp(1+2, 2, 4)} before the size ranking is consulted. *)
Theorem scenario_result :
  process_pdf scenario_doc =
    {| title := "Annual Report 2024";
       outline := [ {| level := "H3"; text := "Overview"; page := 2 |};
                    {| level := "H3"; text := "Details"; page := 3 |} ] |}.
Proof. vm_compute. reflexivity. Qed.

(** The outline the scenario expects, with Overview at H1, is not what
    [process_pdf] returns. *)
Lemma scenario_overview_is_not_H1 :
  process_pdf scenario_doc <>
    {| title := "Annual Report 2024";
       outline := [ {| level := "H1"; text := "Overview"; page := 2 |};
                    {| level := "H3"; text := "Details"; page := 3 |} ] |}.
Proof. vm_compute. discriminate. Qed.

(** C9, duplicate heading texts are possible: the lines '1. Summary' and
    '2. Summary' have distinct raw texts, so both pass the de-duplication
    test, and both are emitted with the prefix stripped: the outline holds
    the text 'Summary' twice. *)
Theorem duplicate_heading_texts_possible :
  map (fun v => line_text_of (snd v)) (visits summary_doc) =
    [ "Quarterly Notes"; "1. Summary"; "First part of the notes.";
      "Second part of the notes."; "2. Summary" ] /\
  outline (process_pdf summary_doc) =
    [ {| level := "H3"; text := "Summary"; page := 1 |};
      {| level := "H3"; text := "Summary"; page := 1 |} ].
Proof. split; vm_compute; reflexivity. Qed.

(** ** The pass as a fold over the visits *)

Lemma fold_visit_page (body_size : Z) (size_to_level : gmap Z string)
    (k : nat) (l : list Line) (st : State) :
  fold_left (visit body_size size_to_level) (map (pair k) l) st =
  fold_left (heading_line body_size size_to_level k) l st.
Proof.
  revert st. induction l as [|x l IH]; intros st; simpl; [reflexivity|].
  apply IH.
Qed.

Lemma heading_pass_visits (body_size : Z) (size_to_level : gmap Z string)
    (doc : Document) (st : State) :
  heading_pass body_size size_to_level doc st =
  fold_left (visit body_size size_to_level) (visits doc) st.
Proof.
  unfold heading_pass, enumerate, visits, visits_from.
  generalize 0%nat as k. revert st.
  induction doc as [|p doc IH]; intros st k; simpl; [reflexivity|].
  rewrite fold_left_app, fold_visit_page. apply IH.
Qed.

(** ** Margin exclusion *)

Lemma filter_filter_implied {A} (f g : A -> bool) (l : list A) :
  (forall x, f x = true -> g x = true) ->
  List.filter f (List.filter g l) = List.filter f l.
Proof.
  intros Hfg. induction l as [|x l IH]; simpl; [reflexivity|].
  destruct (g x) eqn:Hg; simpl.
  - rewrite IH. reflexivity.
  - destruct (f x) eqn:Hf; [|exact IH].
    apply Hfg in Hf. congruence.
Qed.

(** A line that overlaps the clip band reaches below the 10% mark and
    starts above the 90% mark. *)
Lemma overlap_not_in_margin (p : Page) (l : Line) :
  overlaps (line_bbox l) (clip_box p) = true ->
  in_top_margin p l = false /\ in_bottom_margin p l = false.
Proof.
  unfold overlaps, in_top_margin, in_bottom_margin, Py.Qlt_bool, clip_box. simpl.
  intros H. repeat (apply andb_prop in H; destruct H as [H ?]).
  split; apply negb_true_iff; assumption.
Qed.

Lemma insert_block_perm (b : Block) (l : list Block) :
  Permutation (insert_block b l) (b :: l).
Proof.
  induction l as [|c l IH]; simpl; [reflexivity|].
  destruct (key_le b c); [reflexivity|].
  rewrite IH. apply perm_swap.
Qed.

Lemma sort_blocks_perm (l : list Block) : Permutation (sort_blocks l) l.
Proof.
  induction l as [|b l IH]; simpl; [reflexivity|].
  rewrite insert_block_perm. constructor. exact IH.
Qed.

Lemma visited_lines_overlap (p : Page) (l : Line) :
  In l (visited_lines p) -> overlaps (line_bbox l) (clip_box p) = true.
Proof.
  unfold visited_lines, get_text. intros H.
  apply in_flat_map in H. destruct H as [b [Hb Hl]].
  apply (Permutation_in _ (sort_blocks_perm _)) in Hb.
  apply in_map_iff in Hb. destruct Hb as [b0 [<- _]].
  simpl in Hl. apply filter_In in Hl. tauto.
Qed.

Lemma visited_lines_without_margin (p : Page) :
  visited_lines (without_margin_lines p) = visited_lines p.
Proof.
  unfold visited_lines, get_text.
  change (clip_box (without_margin_lines p)) with (clip_box p).
  f_equal. f_equal. simpl. rewrite map_map. apply map_ext_in.
  intros b _. unfold clip_block. simpl. f_equal.
  apply filter_filter_implied. intros l Hl.
  destruct (overlap_not_in_margin p l Hl) as [-> ->]. reflexivity.
Qed.

Lemma visits_without_margin (doc : Document) :
  visits (map without_margin_lines doc) = visits doc.
Proof.
  unfold visits, visits_from. generalize 0%nat as k.
  induction doc as [|p doc IH]; intros k; simpl; [reflexivity|].
  rewrite visited_lines_without_margin. f_equal. apply IH.
Qed.

(** C6, margin exclusion: the classifier visits only lines that overlap
    the band from 10% to 90% of the page height, so a line that lies in the
    top 10% or the bottom 10% of its page is never visited; and whatever
    the margins hold, in any style, the pass does exactly what it does on
    the document whose margin lines are all deleted. *)
Theorem margin_exclusion
    (body_size : Z) (size_to_level : gmap Z string) (doc : Document) (st : State) :
  (forall (p : Page) (l : Line),
      in_top_margin p l = true \/ in_bottom_margin p l = true ->
      ~ In l (visited_lines p)) /\
  heading_pass body_size size_to_level doc st =
  heading_pass body_size size_to_level (map without_margin_lines doc) st.
Proof.
  split.
  - intros p l Hm Hin. apply visited_lines_overlap in Hin.
    destruct (overlap_not_in_margin p l Hin) as [Ht Hb].
    destruct Hm; congruence.
  - rewrite !heading_pass_visits, visits_without_margin. reflexivity.
Qed.

(** ** What the de-duplication set holds during the pass *)

Lemma heading_line_processed_mono (body_size : Z) (size_to_level : gmap Z string)
    (page_num : nat) (st : State) (line : Line) (x : string) :
  x ∈ processed_texts st ->
  x ∈ processed_texts (heading_line body_size size_to_level page_num st line).
Proof.
  intros Hx. unfold heading_line.
  destruct (skipped _ _); [exact Hx|].
  destruct (spans line) as [|span rest]; [exact Hx|].
  destruct (truthy _); [|exact Hx].
  destruct (classify _ _ _ _); [|exact Hx].
  simpl. set_solver.
Qed.

Lemma fold_visit_processed_mono (body_size : Z) (size_to_level : gmap Z string)
    (vs : list (nat * Line)) (st : State) (x : string) :
  x ∈ processed_texts st ->
  x ∈ processed_texts (fold_left (visit body_size size_to_level) vs st).
Proof.
  revert st. induction vs as [|v vs IH]; intros st Hx; simpl; [exact Hx|].
  apply IH. apply heading_line_processed_mono. exact Hx.
Qed.

Lemma title_stays_processed (body_size : Z) (size_to_level : gmap Z string)
    (vs : list (nat * Line)) (title : string) :
  Py.lower title ∈
    processed_texts (fold_left (visit body_size size_to_level) vs (initial_state title)).
Proof.
  apply fold_visit_processed_mono. simpl. set_solver.
Qed.

(** The outline of [process_pdf] is the outline of the pass started from
    the state seeded with the title. *)
Lemma process_pdf_outline (page_one : Page) (rest : list Page) :
  let doc := page_one :: rest in
  outline (process_pdf doc) = [] \/
  exists body_size size_to_level,
    outline (process_pdf doc) =
      st_outline (fold_left (visit body_size size_to_level) (visits doc)
                            (initial_state (title (process_pdf doc)))).
Proof.
  intros doc. unfold process_pdf, doc.
  destruct (counter_of (rounded_sizes (page_one :: rest))) as [|first others];
    [left; reflexivity|].
  right. do 2 eexists. simpl. rewrite heading_pass_visits. reflexivity.
Qed.

Lemma fold_without_visit (body_size : Z) (size_to_level : gmap Z string)
    (before after : list (nat * Line)) (page_num : nat) (line : Line) (st0 : State) :
  heading_line body_size size_to_level page_num
    (fold_left (visit body_size size_to_level) before st0) line =
  fold_left (visit body_size size_to_level) before st0 ->
  fold_left (visit body_size size_to_level) (before ++ (page_num, line) :: after) st0 =
  fold_left (visit body_size size_to_level) (before ++ after) st0.
Proof.
  intros H. rewrite !fold_left_app. simpl. unfold visit at 2. simpl.
  rewrite H. reflexivity.
Qed.

(** C4 as the program has it: the de-duplication set is seeded with the
    lowercase title before the pass and keeps it, so a line whose own full
    text lowercases to the lowercase title is skipped wherever it stands:
    the state reached after the lines visited before it is left unchanged,
    and the pass over the document ends as the pass without that visit.
    (The emitted text of another line, once its numbering prefix is
    stripped, is not compared with the title.) *)
Theorem title_line_never_emitted
    (body_size : Z) (size_to_level : gmap Z string)
    (page_one : Page) (rest : list Page)
    (before after : list (nat * Line)) (page_num : nat) (line : Line) :
  let doc := page_one :: rest in
  let st0 := initial_state (title (process_pdf doc)) in
  let st := fold_left (visit body_size size_to_level) before st0 in
  visits doc = (before ++ (page_num, line) :: after)%list ->
  Py.lower (line_text_of line) = Py.lower (title (process_pdf doc)) ->
  Py.lower (title (process_pdf doc)) ∈ processed_texts st /\
  heading_line body_size size_to_level page_num st line = st /\
  heading_pass body_size size_to_level doc st0 =
    fold_left (visit body_size size_to_level) (before ++ after) st0.
Proof.
  intros doc st0 st Hvisits Hlow.
  assert (Hin : Py.lower (title (process_pdf doc)) ∈ processed_texts st)
    by apply title_stays_processed.
  assert (Hskip : heading_line body_size size_to_level page_num st line = st).
  { apply heading_line_skipped, skipped_true. right; right. rewrite Hlow. exact Hin. }
  repeat split; [exact Hin | exact Hskip |].
  rewrite heading_pass_visits, Hvisits. apply fold_without_visit, Hskip.
Qed.

(** * The title detector *)

Lemma fold_left_ext {A B} (f g : A -> B -> A) (l : list B) (a : A) :
  (forall a x, f a x = g a x) -> fold_left f l a = fold_left g l a.
Proof.
  intros H. revert a. induction l as [|x l IH]; intros a; simpl; [reflexivity|].
  rewrite H. apply IH.
Qed.

Lemma fold_left_flat_map {A B C} (f : A -> C -> A) (g : B -> list C)
    (l : list B) (a : A) :
  fold_left f (flat_map g l) a = fold_left (fun a x => fold_left f (g x) a) l a.
Proof.
  revert a. induction l as [|x l IH]; intros a; simpl; [reflexivity|].
  rewrite fold_left_app. apply IH.
Qed.

(** A loop that appends to a list computes a [flat_map]. *)
Lemma fold_left_append {A B} (f : B -> list A) (l : list B) (acc : list A) :
  fold_left (fun acc x => (acc ++ f x)%list) l acc = (acc ++ flat_map f l)%list.
Proof.
  revert acc. induction l as [|x l IH]; intros acc; simpl.
  - rewrite app_nil_r. reflexivity.
  - rewrite IH, app_assoc. reflexivity.
Qed.

Lemma flat_map_singleton_filter {A B} (c : A -> bool) (g : A -> B) (l : list A) :
  flat_map (fun x => if c x then [g x] else []) l = map g (List.filter c l).
Proof.
  induction l as [|x l IH]; simpl; [reflexivity|].
  destruct (c x); simpl; rewrite IH; reflexivity.
Qed.

Lemma max_font_size_of_spans (bs : list Block) :
  max_font_size_of bs = fold_left bump (page_spans bs) 0%Q.
Proof.
  unfold max_font_size_of, page_spans.
  rewrite fold_left_flat_map. apply fold_left_ext. intros m b.
  rewrite fold_left_flat_map. reflexivity.
Qed.

Section Candidate_loops.

Variables (h M : Q).

Let close_to_max (s : Span) : bool := Py.Qlt_bool (Qabs (span_size s - M)) 1.
Let trimmed (s : Span) : string := Py.strip (span_text s).

Lemma span_loop (ss : list Span) (cs : list string) :
  fold_left (fun (cands : list string) span =>
               if Py.Qlt_bool (Qabs (span_size span - M)) 1
               then (cands ++ [Py.strip (span_text span)])%list else cands) ss cs =
  (cs ++ map trimmed (List.filter close_to_max ss))%list.
Proof.
  revert cs. induction ss as [|s ss IH]; intros cs; simpl.
  - rewrite app_nil_r. reflexivity.
  - rewrite IH. unfold close_to_max at 2.
    destruct (Py.Qlt_bool _ _); simpl; [|reflexivity].
    rewrite <- app_assoc. reflexivity.
Qed.

Lemma line_loop (ls : list Line) (cs : list string) :
  fold_left (fun (cands : list string) line =>
    fold_left (fun (cands : list string) span =>
                 if Py.Qlt_bool (Qabs (span_size span - M)) 1
                 then (cands ++ [Py.strip (span_text span)])%list else cands)
              (spans line) cands) ls cs =
  (cs ++ map trimmed (List.filter close_to_max (flat_map spans ls)))%list.
Proof.
  revert cs. induction ls as [|l ls IH]; intros cs; simpl.
  - rewrite app_nil_r. reflexivity.
  - rewrite span_loop, IH, List.filter_app, List.map_app, app_assoc. reflexivity.
Qed.

Lemma block_loop (bs : list Block) (cs : list string) :
  fold_left (fun (cands : list string) block =>
    if Py.Qlt_bool (y1 (bbox block)) (h * (7 # 10)) &&
       negb (Nat.eqb (length (lines block)) 0)
    then
      fold_left (fun (cands : list string) line =>
        fold_left (fun (cands : list string) span =>
          if Py.Qlt_bool (Qabs (span_size span - M)) 1
          then (cands ++ [Py.strip (span_text span)])%list else cands)
          (spans line) cands)
        (lines block) cands
    else cands) bs cs =
  (cs ++ spec_candidates_at h M bs)%list.
Proof.
  revert cs. induction bs as [|b bs IH]; intros cs; simpl.
  - rewrite app_nil_r. reflexivity.
  - rewrite IH. clear IH. rewrite app_assoc. f_equal.
    destruct (Py.Qlt_bool (y1 (bbox b)) (h * (7 # 10))); simpl.
    + destruct (lines b) as [|l ls]; simpl.
      * rewrite app_nil_r. reflexivity.
      * rewrite span_loop, line_loop, List.filter_app, List.map_app, app_assoc. reflexivity.
    + rewrite app_nil_r. reflexivity.
Qed.

(** The candidate loop collects what the specification describes. *)
Lemma title_candidates_of_spec (bs : list Block) :
  title_candidates_of h M bs = spec_candidates_at h M bs.
Proof. unfold title_candidates_of. apply block_loop. Qed.

End Candidate_loops.

(** ** The running maximum *)

Lemma Qlt_bool_true (x y : Q) : Py.Qlt_bool x y = true -> (x < y)%Q.
Proof.
  unfold Py.Qlt_bool. intros H. apply negb_true_iff in H.
  apply Qnot_le_lt. intros Hle. apply Qle_bool_iff in Hle. congruence.
Qed.

Lemma Qlt_bool_false (x y : Q) : Py.Qlt_bool x y = false -> (y <= x)%Q.
Proof.
  unfold Py.Qlt_bool. intros H. apply negb_false_iff in H.
  apply Qle_bool_iff. exact H.
Qed.

Lemma bump_spec (m : Q) (s : Span) :
  (m <= bump m s)%Q /\ (span_size s <= bump m s)%Q /\
  (bump m s = m \/ bump m s = span_size s).
Proof.
  unfold bump. destruct (Py.Qlt_bool m (span_size s)) eqn:E.
  - apply Qlt_bool_true in E. repeat split; auto using Qlt_le_weak, Qle_refl.
  - apply Qlt_bool_false in E. repeat split; auto using Qle_refl.
Qed.

Lemma bump_fold_ge_init (l : list Span) (m : Q) : (m <= fold_left bump l m)%Q.
Proof.
  revert m. induction l as [|s l IH]; intros m; simpl; [apply Qle_refl|].
  eapply Qle_trans; [|apply IH]. apply bump_spec.
Qed.

Lemma bump_fold_ge_elem (l : list Span) (m : Q) (s : Span) :
  In s l -> (span_size s <= fold_left bump l m)%Q.
Proof.
  revert m. induction l as [|x l IH]; intros m Hin; simpl; [destruct Hin|].
  destruct Hin as [-> | Hin]; [|apply IH; exact Hin].
  eapply Qle_trans; [|apply bump_fold_ge_init]. apply bump_spec.
Qed.

Lemma bump_fold_from (l : list Span) (m : Q) :
  fold_left bump l m = m \/
  exists s, In s l /\ fold_left bump l m = span_size s.
Proof.
  revert m. induction l as [|x l IH]; intros m; simpl; [left; reflexivity|].
  destruct (IH (bump m x)) as [E | [s [Hs E]]].
  - rewrite E. destruct (bump_spec m x) as (_ & _ & [E' | E']); rewrite E'.
    + left; reflexivity.
    + right. exists x. auto.
  - right. exists s. auto.
Qed.

Lemma largest_from_ge (s0 : Span) (l : list Span) (s : Span) :
  In s (s0 :: l) -> (span_size s <= largest_from s0 l)%Q.
Proof.
  unfold largest_from. induction l as [|x l IH]; simpl.
  - intros [-> | []]. apply Qle_refl.
  - intros [-> | [-> | Hin]].
    + eapply Qle_trans; [apply IH; left; reflexivity | apply Q.le_max_r].
    + apply Q.le_max_l.
    + eapply Qle_trans; [apply IH; right; exact Hin | apply Q.le_max_r].
Qed.

Lemma largest_from_in (s0 : Span) (l : list Span) :
  exists s, In s (s0 :: l) /\ largest_from s0 l = span_size s.
Proof.
  unfold largest_from. induction l as [|x l IH]; simpl.
  - exists s0. auto.
  - destruct IH as [s [Hs E]]. rewrite E.
    unfold Qmax, GenericMinMax.gmax.
    destruct (span_size x ?= span_size s)%Q.
    + exists x. auto.
    + exists s. split; [|reflexivity]. destruct Hs; auto.
    + exists x. auto.
Qed.

(** With sizes above zero, the running maximum started at 0 is the
    largest size of the page. *)
Lemma running_max_is_largest (s0 : Span) (l : list Span) :
  (forall s, In s (s0 :: l) -> (0 < span_size s)%Q) ->
  (fold_left bump (s0 :: l) 0 == largest_from s0 l)%Q.
Proof.
  intros Hpos. apply Qle_antisym.
  - destruct (bump_fold_from (s0 :: l) 0) as [E | [s [Hs E]]]; rewrite E.
    + eapply Qle_trans; [|apply (largest_from_ge s0 l s0); left; reflexivity].
      apply Qlt_le_weak, Hpos. left; reflexivity.
    + apply largest_from_ge. exact Hs.
  - destruct (largest_from_in s0 l) as [s [Hs E]]. rewrite E.
    apply bump_fold_ge_elem. exact Hs.
Qed.

Lemma close_to_max_compat (x M1 M2 : Q) :
  (M1 == M2)%Q ->
  Py.Qlt_bool (Qabs (x - M1)) 1 = Py.Qlt_bool (Qabs (x - M2)) 1.
Proof.
  intros E. unfold Py.Qlt_bool. f_equal.
  destruct (Qle_bool 1 (Qabs (x - M1))) eqn:E1;
  destruct (Qle_bool 1 (Qabs (x - M2))) eqn:E2; try reflexivity.
  - apply Qle_bool_iff in E1. rewrite E in E1. apply Qle_bool_iff in E1. congruence.
  - apply Qle_bool_iff in E2. rewrite <- E in E2. apply Qle_bool_iff in E2. congruence.
Qed.

Lemma spec_candidates_at_compat (h M1 M2 : Q) (bs : list Block) :
  (M1 == M2)%Q -> spec_candidates_at h M1 bs = spec_candidates_at h M2 bs.
Proof.
  intros E. unfold spec_candidates_at. apply flat_map_ext. intros b.
  destruct (Py.Qlt_bool _ _); [|reflexivity].
  f_equal. apply List.filter_ext. intros s. apply close_to_max_compat. exact E.
Qed.

Lemma flat_map_nil {A B} (f : A -> list B) (l : list A) :
  (forall x, In x l -> f x = []) -> flat_map f l = [].
Proof.
  induction l as [|x l IH]; intros H; simpl; [reflexivity|].
  rewrite (H x) by (left; reflexivity). simpl.
  apply IH. intros y Hy. apply H. right. exact Hy.
Qed.

Lemma flat_map_nil_inv {A B} (f : A -> list B) (l : list A) (x : A) :
  flat_map f l = [] -> In x l -> f x = [].
Proof.
  induction l as [|y l IH]; simpl; intros E Hin; [destruct Hin|].
  apply app_eq_nil in E. destruct E as [E1 E2].
  destruct Hin as [-> | Hin]; auto.
Qed.

Lemma spec_candidates_at_no_spans (h M : Q) (bs : list Block) :
  page_spans bs = [] -> spec_candidates_at h M bs = [].
Proof.
  intros E. unfold spec_candidates_at. apply flat_map_nil. intros b Hb.
  unfold page_spans in E. rewrite (flat_map_nil_inv _ _ b E Hb).
  destruct (Py.Qlt_bool _ _); reflexivity.
Qed.

(** ** [dict.fromkeys] removes duplicates, first occurrence kept *)

Lemma filter_comm {A} (f g : A -> bool) (l : list A) :
  List.filter f (List.filter g l) = List.filter g (List.filter f l).
Proof.
  induction l as [|x l IH]; simpl; [reflexivity|].
  destruct (g x) eqn:Hg, (f x) eqn:Hf; simpl; rewrite ?Hg, ?Hf, IH; reflexivity.
Qed.

Lemma filter_both {A} (f g : A -> bool) (l : list A) :
  List.filter f (List.filter g l) = List.filter (fun x => g x && f x) l.
Proof.
  induction l as [|x l IH]; simpl; [reflexivity|].
  destruct (g x) eqn:Hg; simpl; [|exact IH].
  destruct (f x); rewrite IH; reflexivity.
Qed.

Lemma filter_dedup_first (p : string -> bool) (l : list string) :
  dedup_first (List.filter p l) = List.filter p (dedup_first l).
Proof.
  induction l as [|x l IH]; simpl; [reflexivity|].
  destruct (p x) eqn:Hp; simpl.
  - rewrite IH. f_equal. apply filter_comm.
  - rewrite IH. symmetry. apply filter_filter_implied.
    intros y Hy. apply negb_true_iff, String.eqb_neq. congruence.
Qed.

Lemma fromkeys_from (l acc : list string) :
  fold_left Py.dict_insert_key l acc =
  (acc ++ dedup_first (List.filter (fun x => negb (existsb (String.eqb x) acc)) l))%list.
Proof.
  revert acc. induction l as [|x l IH]; intros acc; simpl.
  - rewrite app_nil_r. reflexivity.
  - rewrite IH. unfold Py.dict_insert_key.
    destruct (existsb (String.eqb x) acc) eqn:Hx; simpl; [reflexivity|].
    rewrite <- app_assoc. simpl. do 2 f_equal.
    rewrite <- filter_dedup_first, filter_both. f_equal.
    apply List.filter_ext. intros y.
    rewrite existsb_app. simpl. rewrite orb_false_r, negb_orb.
    reflexivity.
Qed.

Lemma fromkeys_dedup_first (l : list string) : Py.fromkeys l = dedup_first l.
Proof.
  unfold Py.fromkeys. rewrite fromkeys_from. simpl.
  f_equal. induction l as [|x l IH]; simpl; congruence.
Qed.

Lemma page_spans_perm (bs cs : list Block) :
  Permutation bs cs -> Permutation (page_spans bs) (page_spans cs).
Proof.
  unfold page_spans. induction 1; simpl.
  - constructor.
  - apply Permutation_app_head. assumption.
  - rewrite !app_assoc. apply Permutation_app_tail, Permutation_app_comm.
  - etransitivity; eassumption.
Qed.

Lemma title_candidates_spec (page_one : Page) :
  (forall s, In s (page_spans (blocks page_one)) -> (0 < span_size s)%Q) ->
  title_candidates page_one = spec_candidates page_one.
Proof.
  intros Hpos. unfold title_candidates, spec_candidates.
  rewrite title_candidates_of_spec, max_font_size_of_spans.
  assert (Hpos' : forall s, In s (page_spans (get_text true None page_one)) ->
                            (0 < span_size s)%Q).
  { intros s Hs. apply Hpos. revert Hs. apply Permutation_in.
    apply page_spans_perm. unfold get_text. apply sort_blocks_perm. }
  destruct (page_spans (get_text true None page_one)) as [|s0 l] eqn:E.
  - apply spec_candidates_at_no_spans. exact E.
  - apply spec_candidates_at_compat. apply running_max_is_largest. exact Hpos'.
Qed.

(** C7, title construction: with span sizes above zero, the title is what
    the specification describes.  The candidates are the trimmed texts of
    the spans of page one that belong to a block whose bottom edge is in
    the upper 70% of the page height and whose size is within 1.0 of the
    largest span size of the page; when there is none the title is
    'Untitled Document', otherwise it is the candidates without exact
    duplicates (first occurrence kept), joined with single spaces, with
    every run of white space collapsed to one space, trimmed. *)
Theorem title_construction (page_one : Page) :
  (forall s, In s (page_spans (blocks page_one)) -> (0 < span_size s)%Q) ->
  find_document_title page_one = spec_title page_one /\
  (spec_candidates page_one = [] ->
   find_document_title page_one = "Untitled Document") /\
  (spec_candidates page_one <> [] ->
   find_document_title page_one =
     Py.strip (Re.sub_spaces (Py.join " " (dedup_first (spec_candidates page_one))))).
Proof.
  intros Hpos.
  assert (E : find_document_title page_one = spec_title page_one).
  { unfold find_document_title, spec_title.
    rewrite (title_candidates_spec page_one Hpos).
    destruct (spec_candidates page_one); [reflexivity|].
    rewrite fromkeys_dedup_first. reflexivity. }
  split; [exact E|]. rewrite E. unfold spec_title.
  split; intros H.
  - rewrite H. reflexivity.
  - destruct (spec_candidates page_one); [contradiction|reflexivity].
Qed.

(** * Documents without text, documents without title *)

Lemma process_pdf_title (page_one : Page) (rest : list Page) :
  title (process_pdf (page_one :: rest)) = find_document_title page_one.
Proof.
  unfold process_pdf.
  destruct (counter_of (rounded_sizes (page_one :: rest))); reflexivity.
Qed.

Lemma no_candidates_untitled (page_one : Page) :
  title_candidates page_one = [] ->
  find_document_title page_one = "Untitled Document".
Proof. unfold find_document_title. intros ->. reflexivity. Qed.

Lemma no_spans_no_candidates (page_one : Page) :
  page_spans (blocks page_one) = [] -> title_candidates page_one = [].
Proof.
  intros E. unfold title_candidates. rewrite title_candidates_of_spec.
  apply spec_candidates_at_no_spans.
  apply Permutation_nil. rewrite <- E. symmetry.
  apply page_spans_perm. unfold get_text. apply sort_blocks_perm.
Qed.

(** C8, no-spans short-circuit: a document with at least one page and no
    span on any page makes the size counter empty, so [process_pdf] returns
    at once: the title is what the title detector gave, here 'Untitled
    Document', the outline is empty, and the heading pass is not run. *)
Theorem no_spans_short_circuit (page_one : Page) (rest : list Page) :
  (forall p b l,
      In p (page_one :: rest) -> In b (blocks p) -> In l (lines b) ->
      spans l = []) ->
  counter_of (rounded_sizes (page_one :: rest)) = [] /\
  process_pdf (page_one :: rest) =
    {| title := find_document_title page_one; outline := [] |} /\
  find_document_title page_one = "Untitled Document".
Proof.
  intros Hno.
  assert (Hsizes : rounded_sizes (page_one :: rest) = []).
  { unfold rounded_sizes. apply flat_map_nil. intros p Hp.
    apply flat_map_nil. intros b Hb. apply flat_map_nil. intros l Hl.
    rewrite (Hno p b l Hp Hb Hl). reflexivity. }
  split; [rewrite Hsizes; reflexivity|]. split.
  - unfold process_pdf. rewrite Hsizes. reflexivity.
  - apply no_candidates_untitled, no_spans_no_candidates.
    unfold page_spans. apply flat_map_nil. intros b Hb.
    apply flat_map_nil. intros l Hl.
    apply (Hno page_one b l); [left; reflexivity | exact Hb | exact Hl].
Qed.

(** C10, default-title suppression: when the title detector finds no
    candidate, the title is 'Untitled Document' and the de-duplication set
    starts with 'untitled document' and keeps it, so a line whose full
    trimmed text lowercases to 'untitled document' is skipped wherever it
    stands and however it is styled: the state reached after the lines
    visited before it is left unchanged, and the pass over the document
    ends as the pass without that visit. *)
Theorem default_title_suppression
    (body_size : Z) (size_to_level : gmap Z string)
    (page_one : Page) (rest : list Page)
    (before after : list (nat * Line)) (page_num : nat) (line : Line) :
  let doc := page_one :: rest in
  let st0 := initial_state (title (process_pdf doc)) in
  let st := fold_left (visit body_size size_to_level) before st0 in
  title_candidates page_one = [] ->
  visits doc = (before ++ (page_num, line) :: after)%list ->
  Py.lower (line_text_of line) = "untitled document" ->
  title (process_pdf doc) = "Untitled Document" /\
  "untitled document" ∈ processed_texts st /\
  heading_line body_size size_to_level page_num st line = st /\
  heading_pass body_size size_to_level doc st0 =
    fold_left (visit body_size size_to_level) (before ++ after) st0.
Proof.
  intros doc st0 st Hnone Hvisits Hlow.
  assert (Ht : title (process_pdf doc) = "Untitled Document").
  { unfold doc. rewrite process_pdf_title. apply no_candidates_untitled. exact Hnone. }
  assert (Hin : "untitled document" ∈ processed_texts st).
  { subst st st0. rewrite Ht.
    change "untitled document" with (Py.lower "Untitled Document") at 1.
    apply title_stays_processed. }
  assert (Hskip : heading_line body_size size_to_level page_num st line = st).
  { apply heading_line_skipped, skipped_true. right; right. rewrite Hlow. exact Hin. }
  repeat split; [exact Ht | exact Hin | exact Hskip |].
  rewrite heading_pass_visits, Hvisits. apply fold_without_visit, Hskip.
Qed.

(** * The font size profiler *)

(** ** Keys of the Counter *)

Lemma counter_add_keys_in (k k' : Z) (c : Counter) :
  In k' (map fst (counter_add k c)) <-> k' = k \/ In k' (map fst c).
Proof.
  induction c as [|[k0 n] c IH]; simpl.
  - intuition congruence.
  - destruct (Z.eqb_spec k k0) as [->|Hne]; simpl.
    + intuition congruence.
    + rewrite IH. intuition congruence.
Qed.

Lemma counter_add_keys_nodup (k : Z) (c : Counter) :
  List.NoDup (map fst c) -> List.NoDup (map fst (counter_add k c)).
Proof.
  induction c as [|[k0 n] c IH]; simpl; intros Hnd.
  - constructor; [intros [] | constructor].
  - inversion Hnd as [|? ? Hnotin Hnd']; subst.
    destruct (Z.eqb_spec k k0) as [->|Hne]; simpl.
    + constructor; assumption.
    + constructor; [|apply IH; assumption].
      rewrite counter_add_keys_in. intros [-> | Hin]; [congruence | contradiction].
Qed.

Lemma counter_fold_keys_in (l : list Z) (c : Counter) (k : Z) :
  In k (map fst (fold_left (fun c k => counter_add k c) l c)) <->
  In k (map fst c) \/ In k l.
Proof.
  revert c. induction l as [|x l IH]; intros c; simpl.
  - intuition.
  - rewrite IH, counter_add_keys_in. intuition.
Qed.

Lemma counter_fold_keys_nodup (l : list Z) (c : Counter) :
  List.NoDup (map fst c) ->
  List.NoDup (map fst (fold_left (fun c k => counter_add k c) l c)).
Proof.
  revert c. induction l as [|x l IH]; intros c Hnd; simpl; [exact Hnd|].
  apply IH, counter_add_keys_nodup, Hnd.
Qed.

Lemma counter_of_keys_in (l : list Z) (k : Z) :
  In k (map fst (counter_of l)) <-> In k l.
Proof. unfold counter_of. rewrite counter_fold_keys_in. simpl. intuition. Qed.

Lemma counter_of_keys_nodup (l : list Z) : List.NoDup (map fst (counter_of l)).
Proof. apply counter_fold_keys_nodup. constructor. Qed.

(** ** [sorted(..., reverse=True)] on distinct keys *)

Lemma insert_desc_perm (x : Z) (l : list Z) :
  Permutation (insert_desc x l) (x :: l).
Proof.
  induction l as [|y l IH]; simpl; [reflexivity|].
  destruct (Z.leb y x); [reflexivity|].
  rewrite IH. apply perm_swap.
Qed.

Lemma sorted_desc_perm (l : list Z) : Permutation (sorted_desc l) l.
Proof.
  induction l as [|x l IH]; simpl; [reflexivity|].
  rewrite insert_desc_perm. constructor. exact IH.
Qed.

Lemma insert_desc_strict (x : Z) (l : list Z) :
  StronglySorted Z.gt l -> ~ In x l -> StronglySorted Z.gt (insert_desc x l).
Proof.
  induction l as [|y l IH]; simpl; intros Hs Hx.
  - constructor; constructor.
  - inversion Hs as [|? ? Hs' Hall]; subst.
    destruct (Z.leb_spec y x) as [Hle|Hlt].
    + constructor; [exact Hs|].
      assert (Hyx : (x > y)%Z) by (assert (y <> x) by tauto; lia).
      constructor; [exact Hyx|].
      eapply List.Forall_impl; [|exact Hall]. simpl. intros z Hz. lia.
    + constructor; [apply IH; tauto|].
      apply List.Forall_forall. intros z Hz.
      apply (Permutation_in _ (insert_desc_perm x l)) in Hz.
      destruct Hz as [<- | Hz]; [lia|].
      rewrite List.Forall_forall in Hall. apply Hall, Hz.
Qed.

Lemma sorted_desc_strict (l : list Z) :
  List.NoDup l -> StronglySorted Z.gt (sorted_desc l).
Proof.
  induction 1 as [|x l Hx Hnd IH]; simpl; [constructor|].
  apply insert_desc_strict; [exact IH|].
  intros Hin. apply Hx. revert Hin. apply Permutation_in, sorted_desc_perm.
Qed.

Lemma in_firstn {A} (n : nat) (l : list A) (x : A) : In x (firstn n l) -> In x l.
Proof.
  intros H. rewrite <- (firstn_skipn n l). apply in_or_app. left. exact H.
Qed.

Lemma strongly_sorted_firstn {A} (R : A -> A -> Prop) (n : nat) (l : list A) :
  StronglySorted R l -> StronglySorted R (firstn n l).
Proof.
  revert n. induction l as [|x l IH]; intros [|n] Hs; simpl; try constructor.
  - inversion Hs; subst. apply IH. assumption.
  - inversion Hs as [|? ? _ Hall]; subst.
    apply List.Forall_forall. intros y Hy. rewrite List.Forall_forall in Hall.
    apply Hall. revert Hy. apply in_firstn.
Qed.

Lemma strongly_sorted_split {A} (R : A -> A -> Prop) (l1 l2 : list A) (a b : A) :
  StronglySorted R (l1 ++ l2) -> In a l1 -> In b l2 -> R a b.
Proof.
  induction l1 as [|x l1 IH]; simpl; intros Hs Ha Hb; [destruct Ha|].
  inversion Hs as [|? ? Hs' Hall]; subst.
  destruct Ha as [-> | Ha]; [|apply IH; assumption].
  rewrite List.Forall_forall in Hall. apply Hall, in_or_app. right. exact Hb.
Qed.

(** ** The size-to-level dict *)

Lemma enumerate_from_in {A} (l : list A) (k i : nat) (x : A) :
  nth_error l i = Some x -> In ((k + i)%nat, x) (combine (seq k (length l)) l).
Proof.
  revert k i. induction l as [|y l IH]; intros k [|i] H; simpl in *; try discriminate.
  - injection H as ->. left. f_equal. lia.
  - right. replace (k + S i)%nat with (S k + i)%nat by lia. apply IH, H.
Qed.

Lemma enumerate_from_snd {A} (l : list A) (k : nat) :
  map snd (combine (seq k (length l)) l) = l.
Proof.
  revert k. induction l as [|y l IH]; intros k; simpl; [reflexivity|].
  rewrite IH. reflexivity.
Qed.

Lemma insert_levels_lookup (ps : list (nat * Z)) (m : gmap Z string) (s : Z) :
  List.NoDup (map snd ps) ->
  (forall i, In (i, s) ps ->
     fold_left (fun m '(i, size) => <[size := Py.format_H (i + 1)]> m) ps m !! s =
     Some (Py.format_H (i + 1))) /\
  (~ In s (map snd ps) ->
     fold_left (fun m '(i, size) => <[size := Py.format_H (i + 1)]> m) ps m !! s =
     m !! s).
Proof.
  revert m. induction ps as [|[j t] ps IH]; intros m Hnd; simpl.
  - split; [intros i [] | reflexivity].
  - inversion Hnd as [|? ? Hnotin Hnd']; subst.
    destruct (IH (<[t := Py.format_H (j + 1)]> m) Hnd') as [IH1 IH2].
    split.
    + intros i [E | Hin]; [|apply IH1, Hin].
      injection E as -> ->. rewrite IH2 by exact Hnotin.
      apply lookup_insert_eq.
    + intros Hs. rewrite IH2 by tauto.
      apply lookup_insert_ne. intros ->. apply Hs. left. reflexivity.
Qed.

Section Ranking.

Variables (sizes : list Z) (body_size : Z).

Let heading_sizes : list Z := heading_sizes_of (counter_of sizes) body_size.
Let kept : list Z := firstn 3 heading_sizes.
Let size_to_level : gmap Z string := size_to_level_of heading_sizes.

Lemma heading_sizes_in (s : Z) :
  In s heading_sizes <-> (body_size < s)%Z /\ In s sizes.
Proof.
  unfold heading_sizes, heading_sizes_of. split.
  - intros H. apply (Permutation_in _ (sorted_desc_perm _)) in H.
    apply filter_In in H. destruct H as [Hk Hlt].
    apply (proj1 (counter_of_keys_in _ _)) in Hk.
    apply (proj1 (Z.ltb_lt _ _)) in Hlt. tauto.
  - intros [Hlt Hin].
    apply (Permutation_in _ (Permutation_sym (sorted_desc_perm _))).
    apply filter_In. split.
    + apply (proj2 (counter_of_keys_in _ _)), Hin.
    + apply (proj2 (Z.ltb_lt _ _)), Hlt.
Qed.

Lemma heading_sizes_strict : StronglySorted Z.gt heading_sizes.
Proof.
  apply sorted_desc_strict, List.NoDup_filter, counter_of_keys_nodup.
Qed.

Lemma kept_strict : StronglySorted Z.gt kept.
Proof. apply strongly_sorted_firstn, heading_sizes_strict. Qed.

Lemma strict_nodup (l : list Z) : StronglySorted Z.gt l -> List.NoDup l.
Proof.
  induction 1 as [|x l Hs IH Hall]; constructor; [|exact IH].
  intros Hin. rewrite List.Forall_forall in Hall. specialize (Hall x Hin). lia.
Qed.

Lemma kept_in (s : Z) : In s kept -> (body_size < s)%Z /\ In s sizes.
Proof. intros H. apply heading_sizes_in. revert H. apply in_firstn. Qed.

(** A size above the body size that was not kept is below the three that
    were. *)
Lemma kept_top (s : Z) :
  In s sizes -> (body_size < s)%Z ->
  In s kept \/ (length kept = 3%nat /\ forall k, In k kept -> (s < k)%Z).
Proof.
  intros Hin Hlt.
  assert (Hs : In s heading_sizes) by (apply heading_sizes_in; tauto).
  rewrite <- (firstn_skipn 3 heading_sizes) in Hs.
  apply in_app_or in Hs. destruct Hs as [Hs | Hs]; [left; exact Hs|].
  right. split.
  - apply firstn_length_le.
    destruct (Nat.le_gt_cases 3 (length heading_sizes)) as [H | H]; [exact H|].
    rewrite skipn_all2 in Hs by lia. destruct Hs.
  - intros k Hk. apply Z.gt_lt.
    apply (strongly_sorted_split Z.gt kept (skipn 3 heading_sizes)); try assumption.
    unfold kept. rewrite firstn_skipn. apply heading_sizes_strict.
Qed.

Lemma size_to_level_rank (i : nat) (s : Z) :
  nth_error kept i = Some s -> size_to_level !! s = Some (Py.format_H (i + 1)).
Proof.
  intros H. unfold size_to_level, size_to_level_of, enumerate. fold kept.
  apply insert_levels_lookup.
  - rewrite enumerate_from_snd. apply strict_nodup, kept_strict.
  - apply (enumerate_from_in kept 0 i s H).
Qed.

Lemma size_to_level_keys (s : Z) : is_Some (size_to_level !! s) <-> In s kept.
Proof.
  split.
  - intros Hsome. destruct (in_dec Z.eq_dec s kept) as [Hin | Hnot]; [exact Hin|].
    exfalso. unfold size_to_level, size_to_level_of, enumerate in Hsome.
    fold kept in Hsome.
    destruct (insert_levels_lookup (combine (seq 0 (length kept)) kept) ∅ s) as [_ H2].
    { rewrite enumerate_from_snd. apply strict_nodup, kept_strict. }
    rewrite H2 in Hsome by (rewrite enumerate_from_snd; exact Hnot).
    rewrite lookup_empty in Hsome. destruct Hsome as [? ?]. discriminate.
  - intros Hin. apply In_nth_error in Hin. destruct Hin as [i Hi].
    rewrite (size_to_level_rank i s Hi). eauto.
Qed.

Lemma kept_rank_bound (i : nat) (s : Z) : nth_error kept i = Some s -> (i < 3)%nat.
Proof.
  intros H. assert (Hi : (i < length kept)%nat) by (apply nth_error_Some; congruence).
  unfold kept in Hi. rewrite length_firstn in Hi. lia.
Qed.

(** A bold line that does not match the numbering pattern gets the level
    of its size when the size is a key of the dict. *)
Lemma classify_ranked (s2l : gmap Z string) (line_text : string) (span : Span)
    (lv : string) :
  Re.rmatch numbering_re line_text = None ->
  is_bold_of span = true ->
  s2l !! Py.round (span_size span) = Some lv ->
  classify body_size s2l line_text span = Some lv.
Proof.
  intros Hm Hb Hl. unfold classify. rewrite Hm, Hb, Hl. reflexivity.
Qed.

(** C3, level ranking law: the kept heading sizes are the first three of
    the distinct rounded sizes above the body size in strictly descending
    order, they are the keys of the size-to-level dict, and a considered
    bold line that does not match the numbering pattern and whose first
    span has the kept size of rank i (from 0) is emitted at level H{i+1}:
    H1 at the largest size, H2 at the second, H3 at the third. *)
Theorem level_ranking_law
    (i : nat) (S : Z) (page_num : nat) (st : State) (line : Line) (span : Span) :
  nth_error kept i = Some S ->
  line_text_of line <> "" ->
  (3 <= String.length (line_text_of line))%nat ->
  Py.lower (line_text_of line) ∉ processed_texts st ->
  Re.rmatch numbering_re (line_text_of line) = None ->
  hd_error (spans line) = Some span ->
  is_bold_of span = true ->
  Py.round (span_size span) = S ->
  heading_line body_size size_to_level page_num st line =
    emit st (Py.format_H (i + 1)) (line_text_of line) page_num /\
  (i < 3)%nat /\
  StronglySorted Z.gt kept /\
  (forall s, In s kept -> (body_size < s)%Z /\ In s sizes) /\
  (forall s, In s sizes -> (body_size < s)%Z ->
     In s kept \/ (length kept = 3%nat /\ forall k, In k kept -> (s < k)%Z)) /\
  (forall s, is_Some (size_to_level !! s) <-> In s kept).
Proof.
  intros Hrank Hne Hlen Hnew Hm Hspan Hb Hsize.
  refine (conj _ (conj (kept_rank_bound i S Hrank) (conj kept_strict
            (conj kept_in (conj kept_top size_to_level_keys))))).
  - unfold heading_line. rewrite (skipped_false _ _ Hne Hlen Hnew).
    destruct (spans line) as [|s0 rest]; [discriminate|].
    injection Hspan as ->.
    rewrite (classify_ranked size_to_level _ _ (Py.format_H (i + 1)) Hm Hb).
    + rewrite format_H_truthy. reflexivity.
    + rewrite Hsize. apply size_to_level_rank, Hrank.
Qed.

End Ranking.

(** * The laws on the sample documents *)

(** The quirk of the numbering depth law: every '.' of the line counts. *)
Example depth_counts_every_dot :
  classify 12 ∅ "1.2 See fig. 3.4 for details"
           {| span_text := "1.2 See fig. 3.4 for details"; span_size := 12;
              span_font := "Times-Bold" |} = Some "H4".
Proof. vm_compute. reflexivity. Qed.

(** The scenario document ranks 28pt first: 18pt is second, 16pt third. *)
Example scenario_ranking :
  heading_sizes_of (counter_of (rounded_sizes scenario_doc)) 12 = [28; 18; 16]%Z.
Proof. vm_compute. reflexivity. Qed.

(** A two-character line is skipped. *)
Lemma no_short_or_duplicate_headings_witness :
  (String.length (line_text_of (span_line "ab" 18 "Helvetica-Bold" 100 120)) < 3)%nat /\
  heading_line 12 ∅ 1 (initial_state "Annual Report 2024")
               (span_line "ab" 18 "Helvetica-Bold" 100 120) =
    initial_state "Annual Report 2024".
Proof.
  assert (H : (String.length (line_text_of (span_line "ab" 18 "Helvetica-Bold" 100 120)) < 3)%nat)
    by (vm_compute; lia).
  split; [exact H|].
  exact (proj1 (no_short_or_duplicate_headings 12 ∅ 1
                  (initial_state "Annual Report 2024")
                  (span_line "ab" 18 "Helvetica-Bold" 100 120)
                  (or_intror (or_introl H)))).
Defined.

(** '1.2 See fig. 3.4 for details' in bold has four dots and comes out at H4. *)
Lemma numbering_depth_law_witness :
  heading_line 12 ∅ 1 (initial_state "Annual Report 2024")
               (span_line "1.2 See fig. 3.4 for details" 12 "Times-Bold" 300 314) =
    emit (initial_state "Annual Report 2024") "H4" "1.2 See fig. 3.4 for details" 1.
Proof.
  apply (numbering_depth_law 12 ∅ 1 (initial_state "Annual Report 2024")
           (span_line "1.2 See fig. 3.4 for details" 12 "Times-Bold" 300 314)
           {| span_text := "1.2 See fig. 3.4 for details"; span_size := 12;
              span_font := "Times-Bold" |}).
  - vm_compute. discriminate.
  - vm_compute. lia.
  - apply (bool_decide_unpack _). vm_compute. exact I.
  - vm_compute. eauto.
  - reflexivity.
  - vm_compute. reflexivity.
Defined.

(** In the scenario document a plain bold 18pt line has the size of rank
    1 and comes out at H2. *)
Lemma level_ranking_law_witness :
  heading_line 12
    (size_to_level_of (heading_sizes_of (counter_of (rounded_sizes scenario_doc)) 12))
    2 (initial_state "Annual Report 2024")
    (span_line "Highlights" 18 "Helvetica-Bold" 300 320) =
  emit (initial_state "Annual Report 2024") "H2" "Highlights" 2.
Proof.
  refine (proj1 (level_ranking_law (rounded_sizes scenario_doc) 12 1 18 2
                   (initial_state "Annual Report 2024")
                   (span_line "Highlights" 18 "Helvetica-Bold" 300 320)
                   {| span_text := "Highlights"; span_size := 18;
                      span_font := "Helvetica-Bold" |} _ _ _ _ _ _ _ _)).
  - vm_compute. reflexivity.
  - vm_compute. discriminate.
  - vm_compute. lia.
  - apply (bool_decide_unpack _). vm_compute. exact I.
  - vm_compute. reflexivity.
  - reflexivity.
  - vm_compute. reflexivity.
  - vm_compute. reflexivity.
Defined.

(** The title's own text, emitted after its numbering prefix is stripped:
    the title is 'Overview' and the line '1. Overview' yields the entry
    'Overview'. *)
Lemma title_text_can_be_emitted :
  exists e : Entry,
    In e (outline (process_pdf overview_doc)) /\
    Py.lower (text e) = Py.lower (title (process_pdf overview_doc)).
Proof.
  exists {| level := "H3"; text := "Overview"; page := 1 |}.
  split; vm_compute; auto.
Qed.

(** The title in capitals on page 2 of [echo_doc], bold and 28pt, is
    skipped. *)
Lemma title_line_never_emitted_witness :
  let st0 := initial_state "Annual Report 2024" in
  let st := fold_left (visit 12 ∅) (firstn 4 (visits echo_doc)) st0 in
  let line := span_line "ANNUAL REPORT 2024" 28 "Helvetica-Bold" 300 330 in
  "annual report 2024" ∈ processed_texts st /\
  heading_line 12 ∅ 1 st line = st /\
  heading_pass 12 ∅ echo_doc st0 =
    fold_left (visit 12 ∅) (firstn 4 (visits echo_doc) ++ []) st0.
Proof.
  apply (title_line_never_emitted 12 ∅
           (letter [one_line "Annual Report 2024" 28 "Helvetica" 100 130;
                    one_line "This report covers the year." 12 "Helvetica" 200 214])
           [letter [one_line "1. Overview" 18 "Helvetica-Bold" 100 120;
                    one_line "The year went well." 12 "Helvetica" 200 214;
                    one_line "ANNUAL REPORT 2024" 28 "Helvetica-Bold" 300 330]]
           (firstn 4 (visits echo_doc)) [] 1
           (span_line "ANNUAL REPORT 2024" 28 "Helvetica-Bold" 300 330)).
  - vm_compute. reflexivity.
  - vm_compute. reflexivity.
Defined.

(** Page one of the scenario document. *)
Lemma title_construction_witness :
  find_document_title
    (letter [one_line "Annual Report 2024" 28 "Helvetica" 100 130;
             one_line "This report covers the year." 12 "Helvetica" 200 214]) =
  "Annual Report 2024".
Proof.
  refine (eq_trans (proj1 (title_construction
    (letter [one_line "Annual Report 2024" 28 "Helvetica" 100 130;
             one_line "This report covers the year." 12 "Helvetica" 200 214]) _)) _).
  - intros s [<- | [<- | []]]; reflexivity.
  - vm_compute. reflexivity.
Defined.

(** A page that holds an image block and a line without spans. *)
Lemma no_spans_short_circuit_witness :
  process_pdf blank_doc = {| title := "Untitled Document"; outline := [] |}.
Proof.
  refine (eq_trans (proj1 (proj2 (no_spans_short_circuit
    (letter [ {| bbox := box 100 300; lines := [] |};
              {| bbox := box 400 420;
                 lines := [ {| spans := []; line_bbox := box 400 420 |} ] |} ])
    [] _))) _).
  - intros p b l [<- | []] [<- | [<- | []]]; simpl; intros [<- | []] || intros []; reflexivity.
  - vm_compute. reflexivity.
Defined.

(** 'UNTITLED DOCUMENT', bold and 28pt, in a document without title. *)
Lemma default_title_suppression_witness :
  let st0 := initial_state "Untitled Document" in
  let st := fold_left (visit 12 ∅) (firstn 2 (visits untitled_doc)) st0 in
  process_pdf untitled_doc = {| title := "Untitled Document"; outline := [] |} /\
  heading_line 12 ∅ 0 st (span_line "UNTITLED DOCUMENT" 28 "Helvetica-Bold" 600 630) = st.
Proof.
  split; [vm_compute; reflexivity|].
  refine (proj1 (proj2 (proj2 (default_title_suppression 12 ∅
    (letter [one_line "Some notes, first part." 12 "Helvetica" 100 114;
             one_line "Some notes, second part." 12 "Helvetica" 120 134;
             one_line "UNTITLED DOCUMENT" 28 "Helvetica-Bold" 600 630])
    [] (firstn 2 (visits untitled_doc)) [] 0
    (span_line "UNTITLED DOCUMENT" 28 "Helvetica-Bold" 600 630) _ _ _)))).
  - vm_compute. reflexivity.
  - vm_compute. reflexivity.
  - vm_compute. reflexivity.
Defined.

(** Margin lines leave no trace: of the three numbered bold lines of
    [margin_doc] only the one inside the band is visited and emitted. *)
Example margin_lines_leave_no_entry :
  map (fun v => line_text_of (snd v)) (visits margin_doc) =
    [ "Plain text of the page."; "3. Section"; "More plain text of the page.";
      "Last plain text of the page." ] /\
  process_pdf margin_doc =
    {| title := "1. Running header";
       outline := [ {| level := "H3"; text := "Section"; page := 1 |} ] |}.
Proof. split; vm_compute; reflexivity. Qed.

(** * Where the outline comes from *)

Lemma classify_some (body_size : Z) (size_to_level : gmap Z string)
    (line_text : string) (span : Span) (lv : string) :
  classify body_size size_to_level line_text span = Some lv ->
  is_bold_of span = true /\
  (lv = Py.format_H (Nat.min (Nat.max 2 (Py.count "." line_text + 2)) 4) \/
   size_to_level !! Py.round (span_size span) = Some lv \/
   lv = "H3").
Proof.
  unfold classify.
  destruct (is_bold_of span) eqn:Hb.
  - destruct (Re.rmatch numbering_re line_text).
    + simpl. intros [= <-]. auto.
    + simpl. rewrite andb_true_r.
      destruct (bool_decide _); [intros H; auto|].
      destruct (_ && _); [intros [= <-]; auto | discriminate].
  - destruct (Re.rmatch numbering_re line_text);
      rewrite !andb_false_r; simpl; discriminate.
Qed.

Lemma heading_line_cases (body_size : Z) (size_to_level : gmap Z string)
    (page_num : nat) (st : State) (line : Line) :
  heading_line body_size size_to_level page_num st line = st \/
  emitted_from body_size size_to_level (processed_texts st) (page_num, line)
    (heading_line body_size size_to_level page_num st line) st.
Proof.
  unfold heading_line, emitted_from.
  destruct (skipped (processed_texts st) (line_text_of line)) eqn:Hs; [left; reflexivity|].
  destruct (spans line) as [|span rest] eqn:Hspans; [left; reflexivity|].
  destruct (classify body_size size_to_level (line_text_of line) span) as [lv|] eqn:Hc;
    [|left; reflexivity].
  destruct (truthy (Some lv)); [|left; reflexivity].
  right. exists span, rest, lv. simpl. rewrite Hspans. auto.
Qed.

Lemma skipped_antimono (seen seen' : gset string) (line_text : string) :
  seen ⊆ seen' -> skipped seen' line_text = false -> skipped seen line_text = false.
Proof.
  unfold skipped. intros Hsub H.
  apply orb_false_iff in H. destruct H as [H1 H2].
  rewrite H1. simpl. apply bool_decide_eq_false in H2.
  apply bool_decide_eq_false. set_solver.
Qed.

(** The pass appends, in visiting order, one entry for some of the visits
    and nothing else. *)
Lemma fold_visit_trace (body_size : Z) (size_to_level : gmap Z string)
    (seen : gset string) (vs : list (nat * Line)) (st : State) :
  seen ⊆ processed_texts st ->
  exists tr : list ((nat * Line) * Entry),
    st_outline (fold_left (visit body_size size_to_level) vs st) =
      (st_outline st ++ map snd tr)%list /\
    sublist (map fst tr) vs /\
    Forall (fun ve => source_of body_size size_to_level seen (fst ve) (snd ve)) tr.
Proof.
  revert st. induction vs as [|[n line] vs IH]; intros st Hseen; simpl.
  - exists []. simpl. rewrite app_nil_r. repeat split; constructor.
  - unfold visit at 2. simpl.
    destruct (heading_line_cases body_size size_to_level n st line) as [E | Hemit].
    + rewrite E. destruct (IH st Hseen) as (tr & Ho & Hsub & Hall).
      exists tr. repeat split; [exact Ho | apply sublist_cons, Hsub | exact Hall].
    + destruct Hemit as (span & rest & lv & Hspans & Hskip & Hc & E).
      simpl in *. rewrite E.
      destruct (IH (emit st lv (line_text_of line) n)) as (tr & Ho & Hsub & Hall).
      { simpl. set_solver. }
      exists (((n, line),
               {| level := lv; text := clean_heading (line_text_of line);
                  page := n + 1 |}) :: tr).
      repeat split.
      * rewrite Ho. simpl. rewrite <- app_assoc. reflexivity.
      * simpl. apply sublist_skip, Hsub.
      * constructor; [|exact Hall].
        exists span, rest, lv. simpl.
        repeat split; try assumption.
        apply (skipped_antimono _ _ _ Hseen Hskip).
Qed.

Lemma insert_levels_ranked (ps : list (nat * Z)) (m : gmap Z string) :
  ranked_levels m ->
  (forall i s, In (i, s) ps -> (i < 3)%nat) ->
  ranked_levels
    (fold_left (fun m '(i, size) => <[size := Py.format_H (i + 1)]> m) ps m).
Proof.
  revert m. induction ps as [|[i s] ps IH]; intros m Hm Hps; simpl; [exact Hm|].
  apply IH.
  - intros k lv. destruct (decide (s = k)) as [E|Hne].
    + subst k. rewrite lookup_insert_eq. intros [= <-].
      assert (Hi : (i < 3)%nat) by (apply (Hps i s); left; reflexivity).
      destruct i as [|[|[|i]]]; simpl; try lia; auto.
    + rewrite lookup_insert_ne by exact Hne. apply Hm.
  - intros j t Hin. apply (Hps j t). right. exact Hin.
Qed.

Lemma enumerate_index_bound {A} (l : list A) (k i : nat) (x : A) :
  In (i, x) (combine (seq k (length l)) l) -> (i < k + length l)%nat.
Proof.
  revert k. induction l as [|y l IH]; intros k; simpl; [intros []|].
  intros [[= <- <-] | Hin]; [lia|]. apply IH in Hin. lia.
Qed.

Lemma size_to_level_ranked (heading_sizes : list Z) :
  ranked_levels (size_to_level_of heading_sizes).
Proof.
  unfold size_to_level_of, enumerate. apply insert_levels_ranked.
  - intros k lv. rewrite lookup_empty. discriminate.
  - intros i s Hin. apply enumerate_index_bound in Hin.
    rewrite length_firstn in Hin. lia.
Qed.

(** Every run of [process_pdf] on a document with pages has such a trace. *)
Lemma process_pdf_trace (page_one : Page) (rest : list Page) :
  exists (body_size : Z) (size_to_level : gmap Z string)
         (tr : list ((nat * Line) * Entry)),
    ranked_levels size_to_level /\
    outline (process_pdf (page_one :: rest)) = map snd tr /\
    sublist (map fst tr) (visits (page_one :: rest)) /\
    Forall (fun ve => source_of body_size size_to_level
                        {[Py.lower (title (process_pdf (page_one :: rest)))]}
                        (fst ve) (snd ve)) tr.
Proof.
  rewrite process_pdf_title. unfold process_pdf.
  destruct (counter_of (rounded_sizes (page_one :: rest))) as [|first others].
  - exists 0%Z, ∅, []. simpl.
    split; [intros k lv; rewrite lookup_empty; discriminate|].
    split; [reflexivity|]. split; [apply sublist_nil_l | constructor].
  - cbn [outline]. rewrite heading_pass_visits.
    destruct (fold_visit_trace
                (fst (most_common_1 first others))
                (size_to_level_of (heading_sizes_of (first :: others)
                                     (fst (most_common_1 first others))))
                {[Py.lower (find_document_title page_one)]}
                (visits (page_one :: rest))
                (initial_state (find_document_title page_one)))
      as (tr & Ho & Hsub & Hall); [simpl; set_solver|].
    do 2 eexists. exists tr.
    split; [apply size_to_level_ranked|]. split; [exact Ho|].
    split; [exact Hsub | exact Hall].
Qed.

(** ** Facts on visits and subsequences *)

Lemma visits_from_in (k : nat) (doc : Document) (i : nat) (line : Line) :
  In (i, line) (visits_from k doc) ->
  (k <= i)%nat /\
  exists p, nth_error doc (i - k) = Some p /\ In line (visited_lines p).
Proof.
  unfold visits_from. revert k.
  induction doc as [|p doc IH]; intros k; simpl; [intros []|].
  intros H. apply in_app_or in H. destruct H as [H | H].
  - apply in_map_iff in H. destruct H as (l & [= <- <-] & Hl).
    split; [lia|]. exists p. rewrite Nat.sub_diag. auto.
  - apply IH in H. destruct H as (Hle & q & Hq & Hl).
    split; [lia|]. exists q. split; [|exact Hl].
    replace (i - k)%nat with (S (i - S k)) by lia. exact Hq.
Qed.

Lemma visits_from_sorted (k : nat) (doc : Document) :
  StronglySorted le (map fst (visits_from k doc)).
Proof.
  unfold visits_from. revert k.
  induction doc as [|p doc IH]; intros k; simpl; [constructor|].
  rewrite List.map_app, List.map_map. simpl.
  induction (visited_lines p) as [|l ls IHl]; simpl; [apply IH|].
  constructor; [exact IHl|].
  apply List.Forall_forall. intros j Hj. apply in_app_or in Hj.
  destruct Hj as [Hj | Hj].
  - apply in_map_iff in Hj. destruct Hj as (? & <- & _). lia.
  - apply in_map_iff in Hj. destruct Hj as ([j' l'] & <- & Hin).
    apply (visits_from_in (S k) doc j' l') in Hin. simpl. lia.
Qed.

Lemma sublist_map {A B} (f : A -> B) (l1 l2 : list A) :
  sublist l1 l2 -> sublist (map f l1) (map f l2).
Proof. induction 1; simpl; constructor; assumption. Qed.

Lemma sublist_In {A} (l1 l2 : list A) (x : A) :
  sublist l1 l2 -> In x l1 -> In x l2.
Proof.
  induction 1 as [|y l1 l2 _ IH|y l1 l2 _ IH]; simpl; intuition.
Qed.

Lemma sublist_strongly_sorted {A} (R : A -> A -> Prop) (l1 l2 : list A) :
  sublist l1 l2 -> StronglySorted R l2 -> StronglySorted R l1.
Proof.
  induction 1 as [|y l1 l2 Hsub IH|y l1 l2 Hsub IH]; intros Hs.
  - constructor.
  - inversion Hs as [|? ? Hs' Hall]; subst. constructor; [apply IH, Hs'|].
    apply List.Forall_forall. intros z Hz.
    rewrite List.Forall_forall in Hall. apply Hall.
    apply (sublist_In _ _ _ Hsub Hz).
  - inversion Hs; subst. apply IH. assumption.
Qed.

Lemma trace_keys (body_size : Z) (size_to_level : gmap Z string)
    (seen : gset string) (tr : list ((nat * Line) * Entry)) :
  Forall (fun ve => source_of body_size size_to_level seen (fst ve) (snd ve)) tr ->
  map entry_key (map snd tr) = map visit_key (map fst tr).
Proof.
  induction 1 as [|[v e] tr Hsrc _ IH]; simpl; [reflexivity|].
  rewrite IH. f_equal.
  destruct Hsrc as (span & rest & lv & _ & _ & _ & E). simpl in E. subst e.
  reflexivity.
Qed.

(** ** [str.strip] twice is [str.strip] once *)

Lemma rstrip_idem (s : string) : Py.rstrip (Py.rstrip s) = Py.rstrip s.
Proof.
  induction s as [|c s IH]; simpl; [reflexivity|].
  destruct (Py.rstrip s) as [|d r] eqn:E.
  - destruct (Py.isspace c) eqn:Hc; simpl; [reflexivity|]. rewrite Hc. reflexivity.
  - simpl in IH. simpl. rewrite IH. reflexivity.
Qed.

Lemma lstrip_head (s : string) :
  Py.lstrip s = EmptyString \/
  exists c t, Py.lstrip s = String c t /\ Py.isspace c = false.
Proof.
  induction s as [|c s IH]; simpl; [left; reflexivity|].
  destruct (Py.isspace c) eqn:Hc; [exact IH|].
  right. exists c, s. auto.
Qed.

Lemma strip_idem (s : string) : Py.strip (Py.strip s) = Py.strip s.
Proof.
  unfold Py.strip.
  destruct (lstrip_head s) as [E | (c & t & E & Hc)]; rewrite E.
  - reflexivity.
  - assert (H : Py.lstrip (Py.rstrip (String c t)) = Py.rstrip (String c t)).
    { simpl. destruct (Py.rstrip t); rewrite ?Hc; simpl; rewrite Hc; reflexivity. }
    rewrite H. apply rstrip_idem.
Qed.

(** * What every outline satisfies *)

Lemma clamp_level (d : nat) :
  In (Py.format_H (Nat.min (Nat.max 2 (d + 2)) 4)) ["H2"; "H3"; "H4"].
Proof.
  destruct d as [|[|d]].
  - vm_compute. tauto.
  - vm_compute. tauto.
  - replace (Nat.min (Nat.max 2 (S (S d) + 2)) 4) with 4%nat by lia.
    vm_compute. tauto.
Qed.

(** X1: the level of every outline entry is one of H1, H2, H3 and H4. *)
Theorem outline_levels (doc : Document) (e : Entry) :
  In e (outline (process_pdf doc)) ->
  In (level e) ["H1"; "H2"; "H3"; "H4"].
Proof.
  destruct doc as [|page_one rest]; [intros []|].
  destruct (process_pdf_trace page_one rest) as (b & m & tr & Hm & Ho & _ & Hall).
  rewrite Ho. intros Hin. apply in_map_iff in Hin.
  destruct Hin as ([v e'] & <- & Hin). rewrite List.Forall_forall in Hall.
  destruct (Hall _ Hin) as (span & r & lv & _ & _ & Hc & ->). simpl.
  apply classify_some in Hc. destruct Hc as (_ & [-> | [Hl | ->]]).
  - pose proof (clamp_level (Py.count "." (line_text_of (snd v)))) as H.
    simpl in *. tauto.
  - apply Hm in Hl. simpl in *. tauto.
  - simpl. auto.
Qed.

(** X2: the page of every outline entry is a page of the document,
    numbered from 1. *)
Theorem outline_pages_in_range (doc : Document) (e : Entry) :
  In e (outline (process_pdf doc)) ->
  (1 <= page e <= length doc)%nat.
Proof.
  destruct doc as [|page_one rest]; [intros []|].
  destruct (process_pdf_trace page_one rest) as (b & m & tr & _ & Ho & Hsub & Hall).
  rewrite Ho. intros Hin. apply in_map_iff in Hin.
  destruct Hin as ([[i line] e'] & <- & Hin).
  assert (Hv : In (i, line) (visits (page_one :: rest))).
  { apply (sublist_In _ _ _ Hsub). apply in_map_iff. exists ((i, line), e'). auto. }
  rewrite List.Forall_forall in Hall.
  destruct (Hall _ Hin) as (span & r & lv & _ & _ & _ & ->). simpl.
  apply visits_from_in in Hv. destruct Hv as (_ & p & Hp & _).
  assert (i - 0 < length (page_one :: rest))%nat by (apply nth_error_Some; congruence).
  simpl in *. lia.
Qed.

Lemma visit_pages_sorted (vs : list (nat * Line)) :
  StronglySorted le (map fst vs) ->
  StronglySorted le (map (fun v => fst (visit_key v)) vs).
Proof.
  induction vs as [|[i l] vs IH]; simpl; intros Hs; [constructor|].
  inversion Hs as [|? ? Hs' Hall]; subst.
  constructor; [apply IH, Hs'|].
  rewrite List.Forall_forall in Hall. apply List.Forall_forall.
  intros j Hj. apply in_map_iff in Hj. destruct Hj as ([i' l'] & <- & Hin).
  assert (i <= i')%nat. { apply Hall. apply in_map_iff. exists (i', l'). auto. }
  simpl. lia.
Qed.

(** X3: the outline follows the document: its entries, as (page, text)
    pairs, are a subsequence of what the visited lines would give, in
    visiting order, so the pages never decrease along the outline. *)
Theorem outline_in_document_order (doc : Document) :
  sublist (map entry_key (outline (process_pdf doc)))
          (map visit_key (visits doc)) /\
  StronglySorted le (map page (outline (process_pdf doc))).
Proof.
  destruct doc as [|page_one rest].
  - simpl. split; constructor.
  - destruct (process_pdf_trace page_one rest) as (b & m & tr & _ & Ho & Hsub & Hall).
    assert (Hk : sublist (map entry_key (outline (process_pdf (page_one :: rest))))
                         (map visit_key (visits (page_one :: rest)))).
    { rewrite Ho, (trace_keys _ _ _ _ Hall). apply sublist_map, Hsub. }
    split; [exact Hk|].
    apply (sublist_map fst) in Hk. rewrite !List.map_map in Hk.
    replace (map page (outline (process_pdf (page_one :: rest))))
      with (map (fun e => fst (entry_key e)) (outline (process_pdf (page_one :: rest))))
      by reflexivity.
    apply (sublist_strongly_sorted _ _ _ Hk).
    apply visit_pages_sorted, (visits_from_sorted 0).
Qed.

Lemma outline_entry_source_text (doc : Document) (e : Entry) :
  In e (outline (process_pdf doc)) -> exists s, text e = clean_heading s.
Proof.
  destruct doc as [|page_one rest]; [intros []|].
  destruct (process_pdf_trace page_one rest) as (b & m & tr & _ & Ho & _ & Hall).
  rewrite Ho. intros Hin. apply in_map_iff in Hin.
  destruct Hin as ([v e'] & <- & Hin). rewrite List.Forall_forall in Hall.
  destruct (Hall _ Hin) as (span & r & lv & _ & _ & _ & ->). simpl. eauto.
Qed.

(** X4: every outline entry comes from a line that the classifier visited
    inside the clip band of the entry's page; the first span of that line is
    bold, its trimmed text has at least 3 characters and does not lowercase
    to the lowercase title, and the entry's text is that text without its
    numbering prefix. *)
Theorem outline_entry_source (doc : Document) (e : Entry) :
  In e (outline (process_pdf doc)) ->
  exists (i : nat) (p : Page) (line : Line) (span : Span),
    nth_error doc i = Some p /\
    In line (visited_lines p) /\
    overlaps (line_bbox line) (clip_box p) = true /\
    hd_error (spans line) = Some span /\
    is_bold_of span = true /\
    (3 <= String.length (line_text_of line))%nat /\
    Py.lower (line_text_of line) <> Py.lower (title (process_pdf doc)) /\
    page e = (i + 1)%nat /\
    text e = clean_heading (line_text_of line).
Proof.
  destruct doc as [|page_one rest]; [intros []|].
  destruct (process_pdf_trace page_one rest) as (b & m & tr & _ & Ho & Hsub & Hall).
  rewrite Ho. intros Hin. apply in_map_iff in Hin.
  destruct Hin as ([[i line] e'] & <- & Hin).
  assert (Hv : In (i, line) (visits (page_one :: rest))).
  { apply (sublist_In _ _ _ Hsub). apply in_map_iff. exists ((i, line), e'). auto. }
  rewrite List.Forall_forall in Hall.
  destruct (Hall _ Hin) as (span & r & lv & Hspans & Hskip & Hc & ->). simpl in *.
  apply visits_from_in in Hv. destruct Hv as (_ & p & Hp & Hl).
  rewrite Nat.sub_0_r in Hp.
  unfold skipped in Hskip. apply orb_false_iff in Hskip. destruct Hskip as [Hs1 Hs2].
  apply orb_false_iff in Hs1. destruct Hs1 as [_ Hlen].
  apply Nat.ltb_ge in Hlen. apply bool_decide_eq_false in Hs2.
  exists i, p, line, span. repeat split; auto.
  - apply visited_lines_overlap, Hl.
  - rewrite Hspans. reflexivity.
  - apply classify_some in Hc. tauto.
  - intros E. apply Hs2. rewrite E. set_solver.
Qed.

(** X5: the text of every outline entry is trimmed: it has no white space
    at either end (it may be empty). *)
Theorem outline_texts_trimmed (doc : Document) (e : Entry) :
  In e (outline (process_pdf doc)) -> Py.strip (text e) = text e.
Proof.
  intros Hin. apply outline_entry_source_text in Hin.
  destruct Hin as (s & ->). unfold clean_heading. apply strip_idem.
Qed.

(** * More on single lines *)

Lemma emitted_text_processed (body_size : Z) (size_to_level : gmap Z string)
    (page_num : nat) (st : State) (line : Line) :
  heading_line body_size size_to_level page_num st line <> st ->
  Py.lower (line_text_of line) ∈
    processed_texts (heading_line body_size size_to_level page_num st line).
Proof.
  intros Hne.
  destruct (heading_line_cases body_size size_to_level page_num st line)
    as [E | (span & rest & lv & _ & _ & _ & E)]; [contradiction|].
  rewrite E. simpl. set_solver.
Qed.

(** X6: once a line has produced an entry, a line met later in the pass
    whose trimmed text has the same lowercase form produces none: the
    state the pass is in when it meets that line is left unchanged. *)
Theorem accepted_text_not_repeated
    (body_size : Z) (size_to_level : gmap Z string)
    (page_num : nat) (st : State) (line : Line)
    (between : list (nat * Line)) (page_num' : nat) (line' : Line) :
  heading_line body_size size_to_level page_num st line <> st ->
  Py.lower (line_text_of line') = Py.lower (line_text_of line) ->
  let st' := fold_left (visit body_size size_to_level) between
                       (heading_line body_size size_to_level page_num st line) in
  heading_line body_size size_to_level page_num' st' line' = st'.
Proof.
  intros Hemit Hlow st'.
  apply heading_line_skipped, skipped_true. right; right. rewrite Hlow.
  apply fold_visit_processed_mono, emitted_text_processed, Hemit.
Qed.

(** X7: with the size-to-level dict that [process_pdf] builds, a line that
    does not match the numbering pattern and whose first span has a rounded
    size not above the body size is never emitted, bold or not. *)
Theorem plain_line_at_body_size_not_emitted
    (sizes : list Z) (body_size : Z)
    (page_num : nat) (st : State) (line : Line) (span : Span) :
  hd_error (spans line) = Some span ->
  Re.rmatch numbering_re (line_text_of line) = None ->
  (Py.round (span_size span) <= body_size)%Z ->
  heading_line body_size
    (size_to_level_of (heading_sizes_of (counter_of sizes) body_size))
    page_num st line = st.
Proof.
  intros Hspan Hm Hle. unfold heading_line.
  destruct (skipped _ _); [reflexivity|].
  destruct (spans line) as [|s0 rest]; [reflexivity|].
  injection Hspan as ->.
  assert (Hnone : size_to_level_of (heading_sizes_of (counter_of sizes) body_size)
                    !! Py.round (span_size span) = None).
  { destruct (size_to_level_of _ !! _) as [lv|] eqn:E; [|reflexivity].
    assert (Hk : In (Py.round (span_size span))
                    (firstn 3 (heading_sizes_of (counter_of sizes) body_size))).
    { apply size_to_level_keys. rewrite E. eauto. }
    apply kept_in in Hk. lia. }
  unfold classify. rewrite Hm, Hnone.
  assert (Hlt : Z.ltb body_size (Py.round (span_size span)) = false)
    by (apply Z.ltb_ge; exact Hle).
  rewrite Hlt. simpl. rewrite !andb_false_r. reflexivity.
Qed.

(** X8: the fallback check.  A considered bold line that does not match
    the numbering pattern and whose rounded size is above the body size
    without being one of the kept heading sizes is emitted at H3 when it
    has fewer than 10 words, and is not emitted otherwise. *)
Theorem fallback_check
    (sizes : list Z) (body_size : Z)
    (page_num : nat) (st : State) (line : Line) (span : Span) :
  line_text_of line <> "" ->
  (3 <= String.length (line_text_of line))%nat ->
  Py.lower (line_text_of line) ∉ processed_texts st ->
  hd_error (spans line) = Some span ->
  is_bold_of span = true ->
  Re.rmatch numbering_re (line_text_of line) = None ->
  (body_size < Py.round (span_size span))%Z ->
  ~ In (Py.round (span_size span))
       (firstn 3 (heading_sizes_of (counter_of sizes) body_size)) ->
  heading_line body_size
    (size_to_level_of (heading_sizes_of (counter_of sizes) body_size))
    page_num st line =
  if Nat.ltb (length (Py.split (line_text_of line))) 10
  then emit st "H3" (line_text_of line) page_num
  else st.
Proof.
  intros Hne Hlen Hnew Hspan Hb Hm Hlt Hnk. unfold heading_line.
  rewrite (skipped_false _ _ Hne Hlen Hnew).
  destruct (spans line) as [|s0 rest]; [discriminate|].
  injection Hspan as ->.
  assert (Hnone : size_to_level_of (heading_sizes_of (counter_of sizes) body_size)
                    !! Py.round (span_size span) = None).
  { destruct (size_to_level_of _ !! _) as [lv|] eqn:E; [|reflexivity].
    exfalso. apply Hnk. apply size_to_level_keys. rewrite E. eauto. }
  unfold classify. rewrite Hm, Hb, Hnone.
  apply Z.ltb_lt in Hlt. rewrite Hlt. simpl.
  destruct (Nat.ltb _ 10); reflexivity.
Qed.

(** * The title is normalised *)

Lemma collapse_single_spaced (b : bool) (s : string) :
  single_spaced b (Re.collapse_from b s) = true.
Proof.
  revert b. induction s as [|c s IH]; intros b; simpl; [reflexivity|].
  destruct (Py.isspace c) eqn:Hc.
  - destruct b; [apply IH|]. simpl. apply IH.
  - simpl. rewrite Hc. apply IH.
Qed.

Lemma single_spaced_fixed (b : bool) (s : string) :
  single_spaced b s = true -> Re.collapse_from b s = s.
Proof.
  revert b. induction s as [|c s IH]; intros b; simpl; [reflexivity|].
  destruct (Py.isspace c) eqn:Hc; intros H.
  - apply andb_prop in H. destruct H as [H Hs].
    apply andb_prop in H. destruct H as [Heq Hb].
    apply Ascii.eqb_eq in Heq. apply negb_true_iff in Hb. subst b c.
    rewrite (IH true Hs). reflexivity.
  - rewrite (IH false H). reflexivity.
Qed.

Lemma single_spaced_lstrip (b b' : bool) (s : string) :
  single_spaced b s = true -> single_spaced b' (Py.lstrip s) = true.
Proof.
  revert b. induction s as [|c s IH]; intros b; simpl; [reflexivity|].
  destruct (Py.isspace c) eqn:Hc; intros H.
  - apply andb_prop in H. destruct H as [_ Hs]. apply (IH true Hs).
  - simpl. rewrite Hc. exact H.
Qed.

Lemma single_spaced_rstrip (b : bool) (s : string) :
  single_spaced b s = true -> single_spaced b (Py.rstrip s) = true.
Proof.
  revert b. induction s as [|c s IH]; intros b; simpl; [reflexivity|].
  destruct (Py.isspace c) eqn:Hc; intros H.
  - apply andb_prop in H. destruct H as [H Hs]. apply IH in Hs.
    destruct (Py.rstrip s) as [|d r]; [reflexivity|].
    simpl. rewrite Hc, H. exact Hs.
  - apply IH in H.
    destruct (Py.rstrip s) as [|d r]; simpl; rewrite Hc; [reflexivity | exact H].
Qed.

Lemma normalised_fixed (u : string) :
  let t := Py.strip (Re.sub_spaces u) in
  Py.strip t = t /\ Re.sub_spaces t = t.
Proof.
  intros t. split; [apply strip_idem|].
  apply single_spaced_fixed. unfold t, Py.strip.
  apply single_spaced_rstrip, (single_spaced_lstrip false), collapse_single_spaced.
Qed.

(** X9: the title that [process_pdf] returns is normalised, whatever the
    spans of page one hold: trimming it or collapsing its white space
    again changes nothing, so it has no white space at either end and its
    only white space is single spaces. *)
Theorem title_is_normalised (doc : Document) :
  Py.strip (title (process_pdf doc)) = title (process_pdf doc) /\
  Re.sub_spaces (title (process_pdf doc)) = title (process_pdf doc).
Proof.
  destruct doc as [|page_one rest]; [split; vm_compute; reflexivity|].
  rewrite process_pdf_title. unfold find_document_title.
  destruct (title_candidates page_one) as [|c cs].
  - split; vm_compute; reflexivity.
  - apply normalised_fixed.
Qed.

(** * The body size is the most frequent size *)

Lemma counter_get_add (k k' : Z) (c : Counter) :
  counter_get k' (counter_add k c) =
  (counter_get k' c + if Z.eqb k' k then 1 else 0)%nat.
Proof.
  induction c as [|[k0 n] c IH]; simpl.
  - destruct (Z.eqb k' k); reflexivity.
  - destruct (Z.eqb_spec k k0) as [->|Hne]; simpl.
    + destruct (Z.eqb k' k0); lia.
    + destruct (Z.eqb_spec k' k0) as [->|Hne'].
      * destruct (Z.eqb_spec k0 k); [congruence | lia].
      * apply IH.
Qed.

Lemma counter_fold_get (l : list Z) (c : Counter) (k : Z) :
  counter_get k (fold_left (fun c k => counter_add k c) l c) =
  (counter_get k c + count_occ Z.eq_dec l k)%nat.
Proof.
  revert c. induction l as [|x l IH]; intros c; simpl; [lia|].
  rewrite IH, counter_get_add.
  destruct (Z.eq_dec x k) as [->|Hne].
  - rewrite Z.eqb_refl. lia.
  - destruct (Z.eqb_spec k x); [congruence | lia].
Qed.

(** A Counter counts: [Counter(l)[k]] is the number of [k] in [l]. *)
Lemma counter_of_get (l : list Z) (k : Z) :
  counter_get k (counter_of l) = count_occ Z.eq_dec l k.
Proof. unfold counter_of. rewrite counter_fold_get. reflexivity. Qed.

Lemma counter_get_item (c : Counter) (k : Z) (n : nat) :
  List.NoDup (map fst c) -> In (k, n) c -> counter_get k c = n.
Proof.
  induction c as [|[k0 n0] c IH]; simpl; intros Hnd; [intros []|].
  inversion Hnd as [|? ? Hnotin Hnd']; subst.
  intros [[= -> ->] | Hin].
  - rewrite Z.eqb_refl. reflexivity.
  - destruct (Z.eqb_spec k k0) as [->|Hne]; [|apply IH; assumption].
    exfalso. apply Hnotin. apply in_map_iff. exists (k0, n). auto.
Qed.

Lemma counter_of_item (l : list Z) (k : Z) (n : nat) :
  In (k, n) (counter_of l) -> n = count_occ Z.eq_dec l k.
Proof.
  intros Hin. rewrite <- counter_of_get. symmetry.
  apply counter_get_item; [apply counter_of_keys_nodup | exact Hin].
Qed.

(** [max(items, key=count)] keeps the first of the largest counts. *)
Lemma most_common_fold (others done : Counter) (best : Z * nat) :
  (exists pre post,
      done = (pre ++ best :: post)%list /\
      (forall x, In x pre -> (snd x < snd best)%nat) /\
      (forall x, In x post -> (snd x <= snd best)%nat)) ->
  exists pre post,
    (done ++ others)%list =
      (pre ++ fold_left (fun best item =>
                           if Nat.ltb (snd best) (snd item) then item else best)
                        others best :: post)%list /\
    (forall x, In x pre ->
       (snd x < snd (fold_left (fun best item =>
                                  if Nat.ltb (snd best) (snd item) then item else best)
                               others best))%nat) /\
    (forall x, In x post ->
       (snd x <= snd (fold_left (fun best item =>
                                   if Nat.ltb (snd best) (snd item) then item else best)
                                others best))%nat).
Proof.
  revert done best. induction others as [|item others IH]; intros done best Hinv; simpl.
  - rewrite app_nil_r. exact Hinv.
  - replace (done ++ item :: others)%list with ((done ++ [item]) ++ others)%list
      by (rewrite <- app_assoc; reflexivity).
    apply IH. destruct Hinv as (pre & post & -> & Hpre & Hpost).
    destruct (Nat.ltb_spec (snd best) (snd item)) as [Hlt | Hge].
    + exists (pre ++ best :: post)%list, []. split; [reflexivity|].
      split; [|intros x []].
      intros x Hx. apply in_app_or in Hx. destruct Hx as [Hx | [<- | Hx]].
      * apply Hpre in Hx. lia.
      * exact Hlt.
      * apply Hpost in Hx. lia.
    + exists pre, (post ++ [item])%list.
      split; [rewrite <- app_assoc; reflexivity|]. split; [exact Hpre|].
      intros x Hx. apply in_app_or in Hx. destruct Hx as [Hx | [<- | []]].
      * apply Hpost, Hx.
      * exact Hge.
Qed.

Lemma most_common_1_spec (first : Z * nat) (others : Counter) :
  exists pre post,
    first :: others = (pre ++ most_common_1 first others :: post)%list /\
    (forall x, In x pre -> (snd x < snd (most_common_1 first others))%nat) /\
    (forall x, In x post -> (snd x <= snd (most_common_1 first others))%nat).
Proof.
  apply (most_common_fold others [first] first).
  exists [], []. split; [reflexivity|]. split; intros x [].
Qed.

(** ** Keys stand in the order of their first occurrence *)

Lemma counter_add_keys (k : Z) (c : Counter) :
  map fst (counter_add k c) =
  if existsb (Z.eqb k) (map fst c) then map fst c else (map fst c ++ [k])%list.
Proof.
  induction c as [|[k0 n] c IH]; simpl; [reflexivity|].
  destruct (Z.eqb_spec k k0) as [->|Hne]; simpl; [reflexivity|].
  rewrite IH. destruct (existsb (Z.eqb k) (map fst c)); reflexivity.
Qed.

Lemma counter_of_snoc (l : list Z) (x : Z) :
  counter_of (l ++ [x]) = counter_add x (counter_of l).
Proof. unfold counter_of. rewrite fold_left_app. reflexivity. Qed.

Lemma counter_keys_order (l : list Z) (a b : Z) (p q : list Z) :
  map fst (counter_of l) = (p ++ a :: q)%list -> In b q ->
  exists l1 l2, l = (l1 ++ a :: l2)%list /\ ~ In b l1.
Proof.
  revert p q. induction l as [|x l IH] using rev_ind; intros p q Hk Hb.
  - destruct p; discriminate.
  - rewrite counter_of_snoc, counter_add_keys in Hk.
    destruct (existsb (Z.eqb x) (map fst (counter_of l))) eqn:Hx.
    + destruct (IH p q Hk Hb) as (l1 & l2 & -> & Hn).
      exists l1, (l2 ++ [x])%list. split; [|exact Hn].
      rewrite <- app_assoc. reflexivity.
    + assert (Hxl : ~ In x l).
      { intros Hin. apply (proj2 (counter_of_keys_in l x)) in Hin.
        assert (existsb (Z.eqb x) (map fst (counter_of l)) = true).
        { apply existsb_exists. exists x. split; [exact Hin | apply Z.eqb_refl]. }
        congruence. }
      destruct q as [|y q'] using rev_ind; [destruct Hb|]. clear IHq'.
      replace (p ++ a :: q' ++ [y])%list with ((p ++ a :: q') ++ [y])%list in Hk
        by (rewrite <- app_assoc; reflexivity).
      apply app_inj_tail in Hk. destruct Hk as [Hk <-].
      apply in_app_or in Hb. destruct Hb as [Hb | [<- | []]].
      * destruct (IH p q' Hk Hb) as (l1 & l2 & -> & Hn).
        exists l1, (l2 ++ [x])%list. split; [|exact Hn].
        rewrite <- app_assoc. reflexivity.
      * assert (Ha : In a l).
        { apply counter_of_keys_in. rewrite Hk. apply in_or_app. right. left. reflexivity. }
        apply in_split in Ha. destruct Ha as (l1 & l2 & ->).
        exists l1, (l2 ++ [x])%list. split.
        -- rewrite <- app_assoc. reflexivity.
        -- intros Hin. apply Hxl. apply in_or_app. left. exact Hin.
Qed.

(** X10: the body size is a most frequent rounded span size of the
    document, and among equally frequent sizes the one that occurs first:
    no size occurs more often, and a different size that occurs as often
    does not occur before the first occurrence of the body size. *)
Theorem body_size_most_frequent (doc : Document) (b : Z) :
  body_size_of doc = Some b ->
  In b (rounded_sizes doc) /\
  (forall k, (count_occ Z.eq_dec (rounded_sizes doc) k <=
              count_occ Z.eq_dec (rounded_sizes doc) b)%nat) /\
  (forall k, k <> b ->
     count_occ Z.eq_dec (rounded_sizes doc) k =
     count_occ Z.eq_dec (rounded_sizes doc) b ->
     exists l1 l2, rounded_sizes doc = (l1 ++ b :: l2)%list /\ ~ In k l1).
Proof.
  unfold body_size_of. set (l := rounded_sizes doc).
  destruct (counter_of l) as [|first others] eqn:Hc; [discriminate|].
  intros [= <-].
  destruct (most_common_1_spec first others) as (pre & post & Hsplit & Hpre & Hpost).
  set (best := most_common_1 first others) in *.
  rewrite <- Hc in Hsplit.
  assert (Hbest : In best (counter_of l)).
  { rewrite Hsplit. apply in_or_app. right. left. reflexivity. }
  assert (Hcount : snd best = count_occ Z.eq_dec l (fst best)).
  { apply counter_of_item. destruct best. exact Hbest. }
  assert (Hb : In (fst best) l).
  { apply counter_of_keys_in. apply in_map. exact Hbest. }
  assert (Hmax : forall x, In x (counter_of l) -> (snd x <= snd best)%nat).
  { intros x Hx. rewrite Hsplit in Hx. apply in_app_or in Hx.
    destruct Hx as [Hx | [<- | Hx]]; [apply Hpre in Hx; lia | lia | apply Hpost, Hx]. }
  assert (Hitem : forall k, In k l ->
            In (k, count_occ Z.eq_dec l k) (counter_of l)).
  { intros k Hk. apply (proj2 (counter_of_keys_in l k)) in Hk.
    apply in_map_iff in Hk. destruct Hk as ([k' n] & E & Hin). simpl in E. subst k'.
    rewrite <- (counter_of_item l k n Hin). exact Hin. }
  split; [exact Hb|]. split.
  - intros k. destruct (in_dec Z.eq_dec k l) as [Hk | Hk].
    + rewrite <- Hcount. apply (Hmax _ (Hitem k Hk)).
    + apply (count_occ_not_In Z.eq_dec) in Hk. rewrite Hk. lia.
  - intros k Hne Heq.
    assert (Hk : In k l).
    { apply (count_occ_In Z.eq_dec). rewrite Heq.
      apply (count_occ_In Z.eq_dec). exact Hb. }
    pose proof (Hitem k Hk) as Hin. rewrite Hsplit in Hin.
    apply in_app_or in Hin. destruct Hin as [Hin | [E | Hin]].
    + apply Hpre in Hin. simpl in Hin. lia.
    + exfalso. apply Hne. rewrite E. reflexivity.
    + apply (counter_keys_order l (fst best) k (map fst pre) (map fst post)).
      * rewrite Hsplit, List.map_app. reflexivity.
      * apply in_map_iff. exists (k, count_occ Z.eq_dec l k). auto.
Qed.

(** * The batch driver *)

(** ** The name of the JSON file *)

Lemma lower_length (s : string) : String.length (Py.lower s) = String.length s.
Proof. induction s as [|c s IH]; simpl; congruence. Qed.

Lemma append_cons (c : ascii) (a b : string) : String c a ++ b = String c (a ++ b).
Proof. reflexivity. Qed.

Lemma append_nil (b : string) : EmptyString ++ b = b.
Proof. reflexivity. Qed.

Lemma append_assoc (a b c : string) : (a ++ b) ++ c = a ++ (b ++ c).
Proof.
  induction a as [|d a IH]; [reflexivity|].
  rewrite !append_cons, IH. reflexivity.
Qed.

Lemma lower_app (a b : string) : Py.lower (a ++ b) = Py.lower a ++ Py.lower b.
Proof.
  induction a as [|c a IH]; [reflexivity|].
  rewrite append_cons. simpl. rewrite IH, append_cons. reflexivity.
Qed.

Lemma substring_whole (b : string) : String.substring 0 (String.length b) b = b.
Proof. induction b as [|d b IH]; simpl; congruence. Qed.

Lemma substring_app_r (a b : string) :
  String.substring (String.length a) (String.length b) (a ++ b) = b.
Proof.
  induction a as [|c a IH].
  - rewrite append_nil. apply substring_whole.
  - rewrite append_cons. exact IH.
Qed.

Lemma substring_app_l (a b : string) :
  String.substring 0 (String.length a) (a ++ b) = a.
Proof.
  induction a as [|c a IH]; [destruct b; reflexivity|].
  rewrite append_cons. simpl. rewrite IH. reflexivity.
Qed.

Lemma app_length (a b : string) :
  String.length (a ++ b) = (String.length a + String.length b)%nat.
Proof.
  induction a as [|c a IH]; [reflexivity|].
  rewrite append_cons. simpl. rewrite IH. reflexivity.
Qed.

Lemma endswith_app (a b : string) : Os.endswith (a ++ b) b = true.
Proof.
  unfold Os.endswith. rewrite app_length.
  replace (String.length a + String.length b - String.length b)%nat
    with (String.length a) by lia.
  rewrite substring_app_r, String.eqb_refl.
  apply andb_true_iff. split; [apply Nat.leb_le; lia | reflexivity].
Qed.

Lemma rfind_app (c : ascii) (a b : string) :
  Os.rfind c (a ++ b) =
  match Os.rfind c b with
  | Some i => Some (String.length a + i)%nat
  | None => Os.rfind c a
  end.
Proof.
  induction a as [|d a IH].
  - rewrite append_nil. destruct (Os.rfind c b); reflexivity.
  - rewrite append_cons. simpl. rewrite IH. destruct (Os.rfind c b); reflexivity.
Qed.

(** Only '.' lowercases to '.', and only '/' to '/'. *)
Lemma lower_char_keeps_dot (c : ascii) :
  (Ascii.eqb (Py.lower_char c) "." = Ascii.eqb c ".") /\
  (Ascii.eqb (Py.lower_char c) "/" = Ascii.eqb c "/").
Proof.
  destruct c as [[] [] [] [] [] [] [] []]; vm_compute; split; reflexivity.
Qed.

Lemma lower_rfind (c : ascii) (s : string) :
  c = "."%char \/ c = "/"%char -> Os.rfind c (Py.lower s) = Os.rfind c s.
Proof.
  intros Hc. induction s as [|d s IH]; simpl; [reflexivity|].
  rewrite IH. destruct (Os.rfind c s); [reflexivity|].
  destruct (lower_char_keeps_dot d) as [Hd Hs].
  destruct Hc as [-> | ->]; [rewrite Hd | rewrite Hs]; reflexivity.
Qed.

(** X11: the JSON file of a directory entry [stem ++ ext] whose extension
    is '.pdf' in any letter case.  The entry is taken as a PDF; its JSON
    file is [stem ++ ".json"] when the stem has a character other than
    '.', and the whole name followed by '.json' when the stem is empty or
    made of dots only (as for the entry '.pdf'). *)
Theorem json_filename_of_pdf (stem ext : string) :
  Py.lower ext = ".pdf" ->
  Os.rfind "/" stem = None ->
  is_pdf_name (stem ++ ext) = true /\
  json_filename_of (stem ++ ext) =
    if existsb (fun c => negb (Ascii.eqb c ".")) (list_ascii_of_string stem)
    then stem ++ ".json"
    else stem ++ ext ++ ".json".
Proof.
  intros Hext Hsep. split.
  - unfold is_pdf_name. rewrite lower_app, Hext. apply endswith_app.
  - assert (Hlen : String.length ext = 4%nat)
      by (rewrite <- lower_length, Hext; reflexivity).
    assert (Hdot : Os.rfind "." ext = Some 0%nat)
      by (rewrite <- (lower_rfind "." ext), Hext; auto).
    assert (Hslash : Os.rfind "/" ext = None)
      by (rewrite <- (lower_rfind "/" ext), Hext; auto).
    unfold json_filename_of, Os.splitext.
    rewrite !rfind_app, Hdot, Hslash, Hsep, Nat.add_0_r, Nat.sub_0_r.
    rewrite substring_app_l. simpl Nat.leb. cbn [andb].
    destruct (existsb _ _); simpl.
    + reflexivity.
    + apply append_assoc.
Qed.

(** ** What [main] does to the output directory *)

Section Main_properties.

Variables (INPUT_DIR OUTPUT_DIR : string).
Variable open_doc : string -> option Document.

Local Abbreviation run_file := (main_file INPUT_DIR OUTPUT_DIR open_doc).
Local Abbreviation run_main := (main INPUT_DIR OUTPUT_DIR open_doc).
Local Abbreviation json_path := (output_path_of OUTPUT_DIR).
Local Abbreviation is_converted := (converted INPUT_DIR open_doc).

Lemma main_file_not_converted (w : World) (filename : string) :
  is_converted filename = false ->
  output_files (run_file w filename) = output_files w.
Proof.
  unfold converted, main_file. intros H.
  destruct (is_pdf_name filename); [|reflexivity].
  destruct (open_doc (Os.join INPUT_DIR filename)); [discriminate | reflexivity].
Qed.

Lemma main_file_converted (w : World) (filename : string) :
  is_converted filename = true ->
  exists doc,
    open_doc (Os.join INPUT_DIR filename) = Some doc /\
    is_pdf_name filename = true /\
    output_files (run_file w filename) =
      <[json_path filename := process_pdf doc]> (output_files w).
Proof.
  unfold converted, main_file. intros H.
  destruct (is_pdf_name filename); [|discriminate].
  destruct (open_doc (Os.join INPUT_DIR filename)) as [doc|]; [|discriminate].
  exists doc. auto.
Qed.

Lemma main_file_other_path (w : World) (filename path : string) :
  path <> json_path filename ->
  output_files (run_file w filename) !! path = output_files w !! path.
Proof.
  intros Hne. destruct (is_converted filename) eqn:Hc.
  - destruct (main_file_converted w filename Hc) as (doc & _ & _ & ->).
    apply lookup_insert_ne. congruence.
  - rewrite (main_file_not_converted w filename Hc). reflexivity.
Qed.

(** Files that are not converted do not count. *)
Lemma fold_main_file_filter (names : list string) (w w' : World) :
  output_files w = output_files w' ->
  output_files (fold_left run_file names w) =
  output_files (fold_left run_file (List.filter is_converted names) w').
Proof.
  revert w w'. induction names as [|f names IH]; intros w w' E; simpl; [exact E|].
  destruct (is_converted f) eqn:Hc; simpl.
  - apply IH.
    destruct (main_file_converted w f Hc) as (doc & Hd & _ & ->).
    destruct (main_file_converted w' f Hc) as (doc' & Hd' & _ & ->).
    rewrite E. congruence.
  - apply IH. rewrite (main_file_not_converted w f Hc). exact E.
Qed.

Lemma fold_main_file_untouched (names : list string) (w : World) (path : string) :
  (forall g, In g names -> is_converted g = true -> json_path g <> path) ->
  output_files (fold_left run_file names w) !! path = output_files w !! path.
Proof.
  revert w. induction names as [|f names IH]; intros w H; simpl; [reflexivity|].
  rewrite IH by (intros g Hg; apply H; right; exact Hg).
  destruct (is_converted f) eqn:Hc.
  - apply main_file_other_path. intros E. apply (H f); auto. left. reflexivity.
  - rewrite (main_file_not_converted w f Hc). reflexivity.
Qed.

(** X12: entries of the input directory that are not PDF names, and PDF
    names whose document cannot be processed, leave the output files as
    they are: [main] writes the same files with the same data as on the
    listing from which those entries are removed. *)
Theorem main_output_ignores_unconverted (w : World) (names : list string) :
  input_listing w = Some names ->
  output_files (run_main w) =
  output_files (run_main {| input_listing := Some (List.filter is_converted names);
                        output_exists := output_exists w;
                        output_files := output_files w;
                        printed := printed w |}).
Proof.
  intros H. unfold main. rewrite H. simpl.
  apply fold_main_file_filter. reflexivity.
Qed.

(** X13: the last writer wins.  An entry that is a PDF name and whose
    document opens has its outline in its JSON file when [main] returns,
    provided no converted entry later in the listing has the same JSON
    path (as 'a.pdf' and 'a.PDF' have). *)
Theorem main_writes_outline
    (w : World) (earlier later : list string) (filename : string) (doc : Document) :
  input_listing w = Some (earlier ++ filename :: later)%list ->
  is_pdf_name filename = true ->
  open_doc (Os.join INPUT_DIR filename) = Some doc ->
  (forall g, In g later -> is_converted g = true ->
             json_path g <> json_path filename) ->
  output_files (run_main w) !! json_path filename = Some (process_pdf doc).
Proof.
  intros H Hpdf Hdoc Hlater. unfold main. rewrite H.
  rewrite fold_left_app. simpl.
  rewrite (fold_main_file_untouched later _ _ Hlater).
  unfold main_file at 1. rewrite Hpdf, Hdoc. simpl.
  apply lookup_insert_eq.
Qed.

Lemma fold_main_file_changed (names : list string) (w0 : World) (path : string) :
  output_files (fold_left run_file names w0) !! path <> output_files w0 !! path ->
  exists filename doc,
    In filename names /\
    is_pdf_name filename = true /\
    open_doc (Os.join INPUT_DIR filename) = Some doc /\
    path = json_path filename /\
    output_files (fold_left run_file names w0) !! path = Some (process_pdf doc).
Proof.
  induction names as [|f names IH] using rev_ind; intros Hne; simpl in Hne;
    [contradiction|].
  rewrite fold_left_app in *. simpl in *.
  destruct (decide (path = json_path f)) as [E | E].
  - destruct (is_converted f) eqn:Hc.
    + destruct (main_file_converted (fold_left run_file names w0) f Hc)
        as (doc & Hd & Hp & Hw).
      exists f, doc. rewrite Hw, E. repeat split; auto.
      * apply in_or_app. right. left. reflexivity.
      * apply lookup_insert_eq.
    + rewrite (main_file_not_converted _ f Hc) in *.
      destruct (IH Hne) as (g & doc & Hg & Hp & Hd & Hpath & Hl).
      exists g, doc. repeat split; auto. apply in_or_app. left. exact Hg.
  - rewrite (main_file_other_path _ f path E) in *.
    destruct (IH Hne) as (g & doc & Hg & Hp & Hd & Hpath & Hl).
    exists g, doc. repeat split; auto. apply in_or_app. left. exact Hg.
Qed.

(** X14: [main] touches no other file.  A path whose content differs
    after [main] is the JSON path of an entry of the input directory that
    is a PDF name and whose document opens, and it then holds the result
    of [process_pdf] on such a document. *)
Theorem main_touches_only_json_of_pdfs (w : World) (path : string) :
  output_files (run_main w) !! path <> output_files w !! path ->
  exists names filename doc,
    input_listing w = Some names /\
    In filename names /\
    is_pdf_name filename = true /\
    open_doc (Os.join INPUT_DIR filename) = Some doc /\
    path = json_path filename /\
    output_files (run_main w) !! path = Some (process_pdf doc).
Proof.
  unfold main. destruct (input_listing w) as [names|] eqn:H;
    [|intros Hne; exfalso; apply Hne; reflexivity].
  intros Hne.
  destruct (fold_main_file_changed names
              {| input_listing := Some names; output_exists := true;
                 output_files := output_files w; printed := printed w |}
              path Hne)
    as (f & doc & Hin & Hp & Hd & Hpath & Hl).
  exists names, f, doc. auto 10.
Qed.

End Main_properties.

(** * The further properties on the sample documents *)

Lemma outline_levels_witness :
  In {| level := "H3"; text := "Overview"; page := 2 |}
     (outline (process_pdf scenario_doc)) /\
  In "H3" ["H1"; "H2"; "H3"; "H4"].
Proof.
  assert (H : In {| level := "H3"; text := "Overview"; page := 2 |}
                 (outline (process_pdf scenario_doc)))
    by (vm_compute; auto).
  split; [exact H|].
  exact (outline_levels scenario_doc _ H).
Defined.

Lemma outline_pages_in_range_witness :
  In {| level := "H3"; text := "Details"; page := 3 |}
     (outline (process_pdf scenario_doc)) /\
  (1 <= 3 <= length scenario_doc)%nat.
Proof.
  assert (H : In {| level := "H3"; text := "Details"; page := 3 |}
                 (outline (process_pdf scenario_doc)))
    by (vm_compute; auto).
  split; [exact H|].
  exact (outline_pages_in_range scenario_doc _ H).
Defined.

Lemma outline_entry_source_witness :
  exists (i : nat) (p : Page) (line : Line) (span : Span),
    nth_error scenario_doc i = Some p /\
    In line (visited_lines p) /\
    overlaps (line_bbox line) (clip_box p) = true /\
    hd_error (spans line) = Some span /\
    is_bold_of span = true /\
    (3 <= String.length (line_text_of line))%nat /\
    Py.lower (line_text_of line) <> Py.lower (title (process_pdf scenario_doc)) /\
    2%nat = (i + 1)%nat /\
    "Overview" = clean_heading (line_text_of line).
Proof.
  apply (outline_entry_source scenario_doc
           {| level := "H3"; text := "Overview"; page := 2 |}).
  vm_compute. auto.
Defined.

Lemma outline_texts_trimmed_witness : Py.strip "Overview" = "Overview".
Proof.
  apply (outline_texts_trimmed scenario_doc
           {| level := "H3"; text := "Overview"; page := 2 |}).
  vm_compute. auto.
Defined.

(** '1. Summary' is emitted; '1. SUMMARY', met after another line, is not. *)
Lemma accepted_text_not_repeated_witness :
  let st1 := heading_line 12 ∅ 0 (initial_state "Quarterly Notes")
               (span_line "1. Summary" 14 "Helvetica-Bold" 200 216) in
  let st2 := fold_left (visit 12 ∅)
               [(0%nat, span_line "First part of the notes." 12 "Helvetica" 230 244)]
               st1 in
  st1 <> initial_state "Quarterly Notes" /\
  heading_line 12 ∅ 1 st2 (span_line "1. SUMMARY" 20 "Helvetica-Bold" 100 120) = st2.
Proof.
  assert (H : heading_line 12 ∅ 0 (initial_state "Quarterly Notes")
                (span_line "1. Summary" 14 "Helvetica-Bold" 200 216) <>
              initial_state "Quarterly Notes").
  { intros E. apply (f_equal st_outline) in E. vm_compute in E. discriminate. }
  split; [exact H|].
  apply (accepted_text_not_repeated 12 ∅ 0 (initial_state "Quarterly Notes")
           (span_line "1. Summary" 14 "Helvetica-Bold" 200 216)
           [(0%nat, span_line "First part of the notes." 12 "Helvetica" 230 244)]
           1 (span_line "1. SUMMARY" 20 "Helvetica-Bold" 100 120) H).
  vm_compute. reflexivity.
Defined.

(** A bold 12pt line in a document whose body size is 12. *)
Lemma plain_line_at_body_size_not_emitted_witness :
  heading_line 12
    (size_to_level_of (heading_sizes_of (counter_of (rounded_sizes scenario_doc)) 12))
    2 (initial_state "Annual Report 2024")
    (span_line "Summary of the year" 12 "Helvetica-Bold" 300 314) =
  initial_state "Annual Report 2024".
Proof.
  apply (plain_line_at_body_size_not_emitted (rounded_sizes scenario_doc) 12 2
           (initial_state "Annual Report 2024")
           (span_line "Summary of the year" 12 "Helvetica-Bold" 300 314)
           {| span_text := "Summary of the year"; span_size := 12;
              span_font := "Helvetica-Bold" |}).
  - reflexivity.
  - vm_compute. reflexivity.
  - vm_compute. discriminate.
Defined.

(** Four sizes above the body size: 14pt is not kept, a short bold 14pt
    line falls back to H3. *)
Lemma fallback_check_witness :
  heading_line 12
    (size_to_level_of (heading_sizes_of (counter_of [12; 12; 28; 18; 16; 14]%Z) 12))
    0 (initial_state "Annual Report 2024")
    (span_line "Side note here" 14 "Helvetica-Bold" 300 316) =
  emit (initial_state "Annual Report 2024") "H3" "Side note here" 0.
Proof.
  apply (fallback_check [12; 12; 28; 18; 16; 14]%Z 12 0
           (initial_state "Annual Report 2024")
           (span_line "Side note here" 14 "Helvetica-Bold" 300 316)
           {| span_text := "Side note here"; span_size := 14;
              span_font := "Helvetica-Bold" |}).
  - vm_compute. discriminate.
  - vm_compute. lia.
  - apply (bool_decide_unpack _). vm_compute. exact I.
  - reflexivity.
  - vm_compute. reflexivity.
  - vm_compute. reflexivity.
  - vm_compute. reflexivity.
  - vm_compute. intros [H | [H | [H | []]]]; discriminate.
Defined.

Lemma body_size_most_frequent_witness :
  body_size_of scenario_doc = Some 12%Z /\
  In 12%Z (rounded_sizes scenario_doc).
Proof.
  assert (H : body_size_of scenario_doc = Some 12%Z) by (vm_compute; reflexivity).
  split; [exact H|].
  exact (proj1 (body_size_most_frequent scenario_doc 12 H)).
Defined.

Lemma json_filename_of_pdf_witness :
  is_pdf_name "report.PDF" = true /\ json_filename_of "report.PDF" = "report.json".
Proof.
  apply (json_filename_of_pdf "report" ".PDF"); vm_compute; reflexivity.
Defined.

Lemma main_output_ignores_unconverted_witness :
  output_files (main "/app/input" "/app/output" sample_open sample_world) =
  output_files (main "/app/input" "/app/output" sample_open
                  {| input_listing := Some ["a.pdf"; "a.PDF"];
                     output_exists := false; output_files := ∅; printed := [] |}).
Proof.
  apply (main_output_ignores_unconverted "/app/input" "/app/output" sample_open
           sample_world ["notes.txt"; "a.pdf"; "broken.pdf"; "a.PDF"]).
  reflexivity.
Defined.

(** 'a.pdf' and 'a.PDF' share the file 'a.json'; the later entry wins. *)
Lemma main_writes_outline_witness :
  output_files (main "/app/input" "/app/output" sample_open sample_world)
    !! "/app/output/a.json" = Some (process_pdf summary_doc).
Proof.
  apply (main_writes_outline "/app/input" "/app/output" sample_open sample_world
           ["notes.txt"; "a.pdf"; "broken.pdf"] [] "a.PDF" summary_doc).
  - reflexivity.
  - vm_compute. reflexivity.
  - vm_compute. reflexivity.
  - intros g [].
Defined.

Lemma main_touches_only_json_of_pdfs_witness :
  exists names filename doc,
    input_listing sample_world = Some names /\
    In filename names /\
    is_pdf_name filename = true /\
    sample_open (Os.join "/app/input" filename) = Some doc /\
    "/app/output/a.json" = output_path_of "/app/output" filename /\
    output_files (main "/app/input" "/app/output" sample_open sample_world)
      !! "/app/output/a.json" = Some (process_pdf doc).
Proof.
  apply (main_touches_only_json_of_pdfs "/app/input" "/app/output" sample_open
           sample_world "/app/output/a.json").
  vm_compute. discriminate.
Defined.

(** * The numbering prefix is stripped whenever the numbered check fires *)

(** A match hands to its continuation a rest that is no longer than the
    subject, and shorter when the pattern cannot match the empty string. *)
Lemma run_consumes {A} (r : Re.regex) :
  forall (s : string) (k : string -> option A) (x : A),
    Re.run r s k = Some x ->
    exists s', k s' = Some x /\
               (String.length s' <= String.length s)%nat /\
               (nullable r = false -> (String.length s' < String.length s)%nat).
Proof.
  induction r as [|p|r1 IH1 r2 IH2|r1 IH1 r2 IH2|r1 IH1]; intros s k x; simpl.
  - intros H. exists s. split; [exact H|]. split; [lia | discriminate].
  - destruct s as [|c s]; [discriminate|].
    destruct (p c); [|discriminate].
    intros H. exists s. simpl. split; [exact H|]. split; lia.
  - intros H. apply IH1 in H. destruct H as (s1 & H & Hle1 & Hlt1).
    apply IH2 in H. destruct H as (s2 & H & Hle2 & Hlt2).
    exists s2. split; [exact H|]. split; [lia|].
    intros Hn. apply andb_false_iff in Hn. destruct Hn as [Hn | Hn].
    + specialize (Hlt1 Hn). lia.
    + specialize (Hlt2 Hn). lia.
  - intros H. unfold Re.or_else in H.
    destruct (Re.run r1 s k) as [y|] eqn:E1.
    + injection H as ->. apply IH1 in E1. destruct E1 as (s1 & H & Hle & Hlt).
      exists s1. split; [exact H|]. split; [exact Hle|].
      intros Hn. apply orb_false_iff in Hn. apply Hlt. tauto.
    + apply IH2 in H. destruct H as (s2 & H & Hle & Hlt).
      exists s2. split; [exact H|]. split; [exact Hle|].
      intros Hn. apply orb_false_iff in Hn. apply Hlt. tauto.
  - generalize (String.length s) at 1 as n. intros n. revert s.
    induction n as [|n IHn]; intros s H.
    + exists s. split; [exact H|]. split; [lia | discriminate].
    + unfold Re.or_else in H at 1.
      match type of H with
      | match ?t with _ => _ end = _ => destruct t as [y|] eqn:E1
      end.
      * injection H as ->. apply IH1 in E1. destruct E1 as (s1 & H & Hle & _).
        destruct (Nat.ltb (String.length s1) (String.length s)); [|discriminate].
        apply IHn in H. destruct H as (s2 & H & Hle2 & _).
        exists s2. split; [exact H|]. split; [lia | discriminate].
      * exists s. split; [exact H|]. split; [lia | discriminate].
Qed.

(** Making the continuation succeed more often keeps a match. *)
Lemma run_mono {A B} (r : Re.regex) :
  forall (s : string) (k1 : string -> option A) (k2 : string -> option B),
    (forall s', is_Some (k1 s') -> is_Some (k2 s')) ->
    is_Some (Re.run r s k1) -> is_Some (Re.run r s k2).
Proof.
  induction r as [|p|r1 IH1 r2 IH2|r1 IH1 r2 IH2|r1 IH1]; intros s k1 k2 Hk; simpl.
  - apply Hk.
  - destruct s as [|c s]; [intros [? ?]; discriminate|].
    destruct (p c); [apply Hk | intros [? ?]; discriminate].
  - apply IH1. intros s'. apply IH2. exact Hk.
  - unfold Re.or_else.
    destruct (Re.run r1 s k1) as [y|] eqn:E1.
    + intros _.
      assert (H : is_Some (Re.run r1 s k2)) by (apply (IH1 s k1 k2 Hk); rewrite E1; eauto).
      destruct H as [z ->]. eauto.
    + intros H. apply (IH2 s k1 k2 Hk) in H.
      destruct (Re.run r1 s k2); [eauto | exact H].
  - generalize (String.length s) as n. intros n. revert s.
    induction n as [|n IHn]; intros s; [apply Hk|].
    unfold Re.or_else.
    match goal with
    | |- is_Some (match ?t with _ => _ end) -> _ => destruct t as [y|] eqn:E1
    end.
    + intros _.
      match goal with
      | |- is_Some (match ?t with _ => _ end) =>
          assert (H : is_Some t)
      end.
      { eapply IH1; [|rewrite E1; eauto].
        intros s'. simpl.
        destruct (Nat.ltb (String.length s') (String.length s)); [apply IHn|].
        intros [? ?]; discriminate. }
      destruct H as [z ->]. eauto.
    + intros H. apply Hk in H.
      match goal with
      | |- is_Some (match ?t with _ => _ end) => destruct t; [eauto | exact H]
      end.
Qed.

Lemma star_always_matches (r : Re.regex) (s : string) :
  is_Some (Re.run (Re.Star r) s Some).
Proof.
  simpl. destruct (String.length s) as [|n]; [eauto|].
  unfold Re.or_else.
  match goal with
  | |- is_Some (match ?t with _ => _ end) => destruct t; eauto
  end.
Qed.

Lemma run_seq {A} (r1 r2 : Re.regex) (s : string) (k : string -> option A) :
  Re.run (Re.Seq r1 r2) s k = Re.run r1 s (fun s' => Re.run r2 s' k).
Proof. reflexivity. Qed.

(** The two patterns go together: where the check matches, the prefix
    pattern matches too. *)
Lemma numbering_then_prefix (s : string) :
  is_Some (Re.rmatch numbering_re s) -> is_Some (Re.rmatch prefix_re s).
Proof.
  unfold Re.rmatch, numbering_re, prefix_re. rewrite !run_seq.
  apply run_mono. intros s1. rewrite !run_seq.
  apply run_mono. intros s2 _. apply star_always_matches.
Qed.

Lemma lstrip_length (s : string) : (String.length (Py.lstrip s) <= String.length s)%nat.
Proof.
  induction s as [|c s IH]; simpl; [lia|].
  destruct (Py.isspace c); simpl; lia.
Qed.

Lemma rstrip_length (s : string) : (String.length (Py.rstrip s) <= String.length s)%nat.
Proof.
  induction s as [|c s IH]; simpl; [lia|].
  destruct (Py.rstrip s); [destruct (Py.isspace c)|]; simpl in *; lia.
Qed.

Lemma strip_length (s : string) : (String.length (Py.strip s) <= String.length s)%nat.
Proof.
  unfold Py.strip. pose proof (rstrip_length (Py.lstrip s)).
  pose proof (lstrip_length s). lia.
Qed.

(** X15: the text of an entry is never longer than the trimmed text of
    its line, and when the line matches the numbering pattern of the
    numbered check the prefix pattern matches as well, so the entry's text
    is shorter than the line: a numbered line never keeps its text whole. *)
Theorem numbered_prefix_is_stripped (line_text : string) :
  (String.length (clean_heading line_text) <= String.length line_text)%nat /\
  (is_Some (Re.rmatch numbering_re line_text) ->
   (String.length (clean_heading line_text) < String.length line_text)%nat).
Proof.
  unfold clean_heading, Re.sub_anchored. split.
  - destruct (Re.rmatch prefix_re line_text) as [rest|] eqn:E.
    + apply run_consumes in E. destruct E as (s' & [= ->] & Hle & _).
      pose proof (strip_length rest). lia.
    + apply strip_length.
  - intros H. apply numbering_then_prefix in H. destruct H as [rest E].
    rewrite E. apply run_consumes in E. destruct E as (s' & [= ->] & _ & Hlt).
    pose proof (strip_length rest). specialize (Hlt eq_refl). lia.
Qed.

(** * Blank lines, and lines with the same text *)

Lemma lstrip_blank (s : string) :
  forallb Py.isspace (list_ascii_of_string s) = true -> Py.lstrip s = "".
Proof.
  induction s as [|c s IH]; simpl; [reflexivity|].
  intros H. apply andb_prop in H. destruct H as [Hc Hs].
  rewrite Hc. apply IH, Hs.
Qed.

(** X16: a line that has no span, or whose spans hold nothing but white
    space, is skipped by the guard before its first span is read: the
    state is unchanged, and [line["spans"][0]] is only evaluated on lines
    that have a span. *)
Theorem blank_line_skipped
    (body_size : Z) (size_to_level : gmap Z string)
    (page_num : nat) (st : State) (line : Line) :
  forallb Py.isspace
    (list_ascii_of_string (Py.join " " (map span_text (spans line)))) = true ->
  line_text_of line = "" /\
  heading_line body_size size_to_level page_num st line = st.
Proof.
  intros H.
  assert (E : line_text_of line = "").
  { unfold line_text_of, Py.strip. rewrite (lstrip_blank _ H). reflexivity. }
  split; [exact E|].
  apply heading_line_skipped, skipped_true. left. exact E.
Qed.

Lemma source_not_seen (body_size : Z) (size_to_level : gmap Z string)
    (seen : gset string) (v : nat * Line) (e : Entry) :
  source_of body_size size_to_level seen v e -> raw_key v ∉ seen.
Proof.
  intros (span & rest & lv & _ & Hskip & _). unfold skipped in Hskip.
  apply orb_false_iff in Hskip. destruct Hskip as [_ H].
  apply bool_decide_eq_false in H. exact H.
Qed.

Lemma source_of_antimono (body_size : Z) (size_to_level : gmap Z string)
    (seen seen' : gset string) (v : nat * Line) (e : Entry) :
  seen ⊆ seen' ->
  source_of body_size size_to_level seen' v e ->
  source_of body_size size_to_level seen v e.
Proof.
  intros Hsub (span & rest & lv & H1 & H2 & H3 & H4).
  exists span, rest, lv. repeat split; try assumption.
  apply (skipped_antimono _ _ _ Hsub H2).
Qed.

(** The lines that give the entries have pairwise distinct keys. *)
Lemma fold_visit_trace_distinct (body_size : Z) (size_to_level : gmap Z string)
    (vs : list (nat * Line)) (st : State) :
  exists tr : list ((nat * Line) * Entry),
    st_outline (fold_left (visit body_size size_to_level) vs st) =
      (st_outline st ++ map snd tr)%list /\
    sublist (map fst tr) vs /\
    Forall (fun ve => source_of body_size size_to_level (processed_texts st)
                        (fst ve) (snd ve)) tr /\
    List.NoDup (map (fun ve => raw_key (fst ve)) tr).
Proof.
  revert st. induction vs as [|[n line] vs IH]; intros st; simpl.
  - exists []. simpl. rewrite app_nil_r. repeat split; constructor.
  - unfold visit at 2. simpl.
    destruct (heading_line_cases body_size size_to_level n st line) as [E | Hemit].
    + rewrite E. destruct (IH st) as (tr & Ho & Hsub & Hall & Hnd).
      exists tr. repeat split; [exact Ho | apply sublist_cons, Hsub | exact Hall | exact Hnd].
    + destruct Hemit as (span & rest & lv & Hspans & Hskip & Hc & E).
      simpl in *. rewrite E.
      destruct (IH (emit st lv (line_text_of line) n)) as (tr & Ho & Hsub & Hall & Hnd).
      exists (((n, line),
               {| level := lv; text := clean_heading (line_text_of line);
                  page := n + 1 |}) :: tr).
      split; [rewrite Ho; simpl; rewrite <- app_assoc; reflexivity|].
      split; [simpl; apply sublist_skip, Hsub|].
      split.
      * constructor.
        -- exists span, rest, lv. simpl. auto.
        -- eapply List.Forall_impl; [|exact Hall].
           intros [v e]. simpl. apply source_of_antimono. set_solver.
      * simpl. constructor; [|exact Hnd].
        intros Hin. apply in_map_iff in Hin. destruct Hin as ([v e] & Hk & Hin).
        rewrite List.Forall_forall in Hall. specialize (Hall _ Hin).
        apply source_not_seen in Hall. simpl in *.
        apply Hall. rewrite Hk. unfold raw_key. simpl. set_solver.
Qed.

(** X17: no two entries of an outline come from lines with the same
    lowercase text, and none from a line whose lowercase text is the
    lowercase title: the outline is, entry by entry and in order, what a
    subsequence of the visited lines gives, and the lowercase trimmed
    texts of those lines are pairwise distinct and differ from the
    lowercase title. *)
Theorem outline_sources_distinct (doc : Document) :
  exists vs : list (nat * Line),
    sublist vs (visits doc) /\
    map entry_key (outline (process_pdf doc)) = map visit_key vs /\
    List.NoDup (map raw_key vs) /\
    ~ In (Py.lower (title (process_pdf doc))) (map raw_key vs).
Proof.
  destruct doc as [|page_one rest].
  - exists []. simpl. repeat split; try constructor. intros [].
  - rewrite process_pdf_title. unfold process_pdf.
    destruct (counter_of (rounded_sizes (page_one :: rest))) as [|first others].
    + exists []. simpl. repeat split; try constructor.
      * apply sublist_nil_l.
      * intros [].
    + cbn [outline]. rewrite heading_pass_visits.
      destruct (fold_visit_trace_distinct
                  (fst (most_common_1 first others))
                  (size_to_level_of (heading_sizes_of (first :: others)
                                       (fst (most_common_1 first others))))
                  (visits (page_one :: rest))
                  (initial_state (find_document_title page_one)))
        as (tr & Ho & Hsub & Hall & Hnd).
      exists (map fst tr). split; [exact Hsub|]. split; [|split].
      * rewrite Ho. simpl. apply (trace_keys _ _ _ _ Hall).
      * rewrite List.map_map. exact Hnd.
      * intros Hin. apply in_map_iff in Hin. destruct Hin as (v & Hk & Hin).
        apply in_map_iff in Hin. destruct Hin as ([v' e] & <- & Hin).
        rewrite List.Forall_forall in Hall. specialize (Hall _ Hin).
        apply source_not_seen in Hall. simpl in *.
        apply Hall. rewrite Hk. set_solver.
Qed.

(** A line of spaces and tabs. *)
Lemma blank_line_skipped_witness :
  heading_line 12 ∅ 0 (initial_state "Annual Report 2024")
    {| spans := [ {| span_text := "  "; span_size := 28; span_font := "Helvetica-Bold" |};
                  {| span_text := " "; span_size := 28; span_font := "Helvetica-Bold" |} ];
       line_bbox := box 100 130 |} =
  initial_state "Annual Report 2024".
Proof.
  apply (blank_line_skipped 12 ∅ 0 (initial_state "Annual Report 2024")).
  vm_compute. reflexivity.
Defined.
